(** * forecast_venus: the metrics engine and the filter evaluator

    A shallow embedding of [app/utils/metrics.py] (class [MetricsCalculator]),
    [app/components/filters.py] ([FilterComponent.apply_filters]) and of the
    part of [app/utils/data_loader.py] that fixes the shape of the table.

    Conventions of the embedding.
    - A [DataFrame] of transactions is a [list Row], in row order.
    - The [data] column holds dates at day precision (the CSV is read with
      [parse_dates], so every cell is a midnight timestamp); a date is the
      number of days since 1970-01-01.  Instants that carry a time of day
      ([datetime.now()]) are nanoseconds since the epoch.
    - The numeric columns are [float64] in the source.  Finite values are
      modelled as exact rationals ([Q]); the non-finite results of a division
      ([inf], [-inf], [NaN]) are kept as constructors of [float64].  Rounding
      error of the binary representation is therefore not modelled, while the
      zero-division behaviour of pandas is.
    - Rational results are compared with [==] ([Qeq]). *)

From Stdlib Require Import ZArith QArith Qround Qabs Lqa.
From Stdlib Require Import List String Bool Lia Permutation Sorted.
Import ListNotations.

Local Open Scope Z_scope.

(** ** Calendar arithmetic on day numbers

    [Timestamp.year] and the calendar offsets of pandas work on the proleptic
    Gregorian calendar.  The two conversions below are the usual era-based
    ones (an era is 400 years, 146097 days, and starts on 1 March). *)

Module Calendar.

Definition days_from_civil (y m d : Z) : Z :=
  let y' := if m <=? 2 then y - 1 else y in
  let era := y' / 400 in
  let yoe := y' - era * 400 in
  let mp := if m >? 2 then m - 3 else m + 9 in
  let doy := (153 * mp + 2) / 5 + d - 1 in
  let doe := yoe * 365 + yoe / 4 - yoe / 100 + doy in
  era * 146097 + doe - 719468.

Definition yoe_of (doe : Z) : Z :=
  (doe - doe / 1460 + doe / 36524 - doe / 146096) / 365.

Definition civil_from_days (z : Z) : Z * Z * Z :=
  let z' := z + 719468 in
  let era := z' / 146097 in
  let doe := z' - era * 146097 in
  let yoe := yoe_of doe in
  let y := yoe + era * 400 in
  let doy := doe - (365 * yoe + yoe / 4 - yoe / 100) in
  let mp := (5 * doy + 2) / 153 in
  let d := doy - (153 * mp + 2) / 5 + 1 in
  let m := if mp <? 10 then mp + 3 else mp - 9 in
  (if m <=? 2 then y + 1 else y, m, d).

Definition year_of (z : Z) : Z := fst (fst (civil_from_days z)).
Definition month_of (z : Z) : Z := snd (fst (civil_from_days z)).
Definition day_of (z : Z) : Z := snd (civil_from_days z).

(** First day of a year, and of a month counted from year 0
    (month index [12 * y + (m - 1)]). *)
Definition year_start (y : Z) : Z := days_from_civil y 1 1.
Definition month_index (z : Z) : Z := year_of z * 12 + (month_of z - 1).
Definition month_start (mi : Z) : Z :=
  days_from_civil (mi / 12) (mi mod 12 + 1) 1.

(** [Timestamp.weekday()]: Monday is 0, Sunday is 6; 1970-01-01 was a
    Thursday. *)
Definition weekday (z : Z) : Z := (z + 3) mod 7.

Definition ns_per_day : Z := 86400000000000.

(** The midnight timestamp of a date, and the date of an instant. *)
Definition midnight (d : Z) : Z := d * ns_per_day.
Definition date_of_instant (t : Z) : Z := t / ns_per_day.

End Calendar.

(** ** The transaction table *)

(** [DataLoader._process_data] maps the code 0 to ['Varejo'] and the code 1
    to ['Atacado']; the column holds no other label. *)
Inductive TipoCliente : Type := Varejo | Atacado.

Definition tipo_label (t : TipoCliente) : string :=
  match t with Varejo => "Varejo" | Atacado => "Atacado" end.

(** One row of the processed table.  [ano] is the derived column
    [data.dt.year]; the other derived columns ([mes], [semana],
    [dia_semana]) and [margem_percentual] are read by no function below. *)
Record Row : Type := mkRow {
  data : Z;
  loja : string;
  tipoCliente : TipoCliente;
  quantidade : Q;
  receita : Q;
  lucro : Q;
  ano : Z
}.

Definition DataFrame : Type := list Row.

(** The three metric columns a caller may name. *)
Inductive Column : Type := Quantidade | Receita | Lucro.

Definition col (c : Column) (r : Row) : Q :=
  match c with
  | Quantidade => quantidade r
  | Receita => receita r
  | Lucro => lucro r
  end.

Module DataLoader.

(** A row as read from the CSV, after the renaming of the columns:
    [tipoCliente] is still the code 0 or 1. *)
Record RawRow : Type := mkRaw {
  raw_data : Z;
  raw_loja : string;
  raw_tipoCliente : bool;
  raw_quantidade : Q;
  raw_receita : Q;
  raw_lucro : Q
}.

Definition process_row (r : RawRow) : Row :=
  mkRow (raw_data r) (raw_loja r)
        (if raw_tipoCliente r then Atacado else Varejo)
        (raw_quantidade r) (raw_receita r) (raw_lucro r)
        (Calendar.year_of (raw_data r)).

Fixpoint insert_by_date (r : Row) (l : DataFrame) : DataFrame :=
  match l with
  | [] => [r]
  | h :: t => if data r <? data h then r :: l else h :: insert_by_date r t
  end.

(** [_process_data]: decode, derive [ano], then [sort_values('data')].
    The order pandas leaves rows of the same date in is not fixed by the
    default sort; only the order of the dates is used below. *)
Definition process_data (raw : list RawRow) : DataFrame :=
  fold_right insert_by_date [] (map process_row raw).

End DataLoader.

(** A table is consistent when every [ano] cell is the year of its [data]
    cell, as [_process_data] leaves it; filtering keeps that. *)
Definition year_consistent (df : DataFrame) : Prop :=
  Forall (fun r => ano r = Calendar.year_of (data r)) df.

(** ** Values of a [float64] column *)

Inductive float64 : Type :=
| Finite (q : Q)
| PosInf
| NegInf
| NaN.

Module Float.

Local Open Scope Q_scope.

(** Division of two finite values, as numpy does it: a zero divisor gives
    [NaN] for a zero dividend and a signed infinity otherwise. *)
Definition div (a b : Q) : float64 :=
  if Qeq_bool b 0 then
    match a ?= 0 with
    | Eq => NaN
    | Gt => PosInf
    | Lt => NegInf
    end
  else Finite (a / b).

(** Product of a column value with a finite scalar. *)
Definition mul (x : float64) (c : Q) : float64 :=
  match x with
  | Finite q => Finite (q * c)
  | PosInf =>
      match c ?= 0 with Eq => NaN | Gt => PosInf | Lt => NegInf end
  | NegInf =>
      match c ?= 0 with Eq => NaN | Gt => NegInf | Lt => PosInf end
  | NaN => NaN
  end.

(** Round to the nearest integer, ties to the even one. *)
Definition rint (q : Q) : Z :=
  let f := Qfloor q in
  match ((q - inject_Z f) ?= (1 # 2))%Q with
  | Lt => f
  | Gt => (f + 1)%Z
  | Eq => if Z.even f then f else (f + 1)%Z
  end.

(** [Series.round(2)] on a finite value: scale by 100, round, scale back.
    The rounding is done here on the exact value.  The code rounds the
    binary double, which at or next to a tie (58.125, 0.575) can land on the
    other neighbour, one hundredth away; nothing below depends on which
    neighbour is taken. *)
Definition round2_Q (q : Q) : Q := inject_Z (rint (q * 100)) / 100.

(** [Series.round(2)]: the non-finite values are left as they are. *)
Definition round2 (x : float64) : float64 :=
  match x with
  | Finite q => Finite (round2_Q q)
  | other => other
  end.

(** [Series.replace([inf, -inf], v)]. *)
Definition replace_inf (v : Q) (x : float64) : float64 :=
  match x with
  | PosInf | NegInf => Finite v
  | other => other
  end.

(** [Series.fillna(v)]. *)
Definition fillna (v : Q) (x : float64) : float64 :=
  match x with
  | NaN => Finite v
  | other => other
  end.

(** [pd.isna]: only [NaN] is the missing marker; the infinities are
    ordinary values. *)
Definition isna (x : float64) : bool :=
  match x with NaN => true | _ => false end.

Definition is_finite (x : float64) : bool :=
  match x with Finite _ => true | _ => false end.

(** Sum of two column values: [inf + -inf] and anything with [NaN] is
    [NaN]. *)
Definition add (x y : float64) : float64 :=
  match x, y with
  | Finite a, Finite b => Finite (a + b)
  | NaN, _ | _, NaN => NaN
  | PosInf, NegInf | NegInf, PosInf => NaN
  | PosInf, _ | _, PosInf => PosInf
  | NegInf, _ | _, NegInf => NegInf
  end.

(** [Series.sum()] on a [float64] column: [skipna=True] drops the [NaN]
    cells, and the sum of nothing is 0. *)
Definition sum (l : list float64) : float64 :=
  fold_right add (Finite 0) (filter (fun x => negb (isna x)) l).

(** A value lies within [tol] of [target]: it has to be finite. *)
Definition within (x : float64) (target tol : Q) : Prop :=
  match x with
  | Finite q => Qabs (q - target) <= tol
  | _ => False
  end.

End Float.

(** ** The pandas operations the engine is written with *)

Module Frame.

(** [Series.sum()] of a column of finite values; 0 on an empty column. *)
Definition sumQ (l : list Q) : Q := fold_right Qplus 0%Q l.

Definition sum_col (f : Row -> Q) (df : DataFrame) : Q := sumQ (map f df).

(** [Series.isin(values)]. *)
Definition isin {A : Type} (eqb : A -> A -> bool) (x : A) (values : list A)
  : bool :=
  existsb (eqb x) values.

(** Group keys: equality to form the groups, an order to sort them
    ([groupby] and [merge(how='outer')] sort their keys). *)
Class Key (K : Type) : Type := {
  key_eq_dec : forall a b : K, {a = b} + {a <> b};
  key_leb : K -> K -> bool
}.

Definition key_eqb {K : Type} `{Key K} (a b : K) : bool :=
  if key_eq_dec a b then true else false.

Fixpoint insert_sorted {K : Type} `{Key K} (k : K) (l : list K) : list K :=
  match l with
  | [] => [k]
  | h :: t => if key_leb k h then k :: l else h :: insert_sorted k t
  end.

Definition sort_keys {K : Type} `{Key K} (l : list K) : list K :=
  fold_right insert_sorted [] l.

(** The distinct keys of a column, sorted. *)
Definition group_keys {K : Type} `{Key K} (l : list K) : list K :=
  sort_keys (nodup key_eq_dec l).

(** The rows of one group, in table order. *)
Definition group_rows {K : Type} `{Key K} (key : Row -> K) (k : K)
  (df : DataFrame) : DataFrame :=
  filter (fun r => key_eqb (key r) k) df.

(** [df.groupby(key)]: one group per distinct key, keys sorted. *)
Definition groupby {K : Type} `{Key K} (key : Row -> K) (df : DataFrame)
  : list (K * DataFrame) :=
  map (fun k => (k, group_rows key k df)) (group_keys (map key df)).

(** The integers from [lo] to [hi], both included. *)
Definition zrange (lo hi : Z) : list Z :=
  map (fun k => lo + Z.of_nat k) (seq 0 (Z.to_nat (hi - lo + 1))).

Definition zmin (x : Z) (l : list Z) : Z := fold_right Z.min x l.
Definition zmax (x : Z) (l : list Z) : Z := fold_right Z.max x l.

End Frame.

#[export] Instance string_Key : Frame.Key string :=
  {| Frame.key_eq_dec := string_dec; Frame.key_leb := String.leb |}.

#[export] Instance Z_Key : Frame.Key Z :=
  {| Frame.key_eq_dec := Z.eq_dec; Frame.key_leb := Z.leb |}.

Definition TipoCliente_eq_dec (a b : TipoCliente) : {a = b} + {a <> b}.
Proof. decide equality. Defined.

(** The labels are strings in the source: ['Atacado'] sorts before
    ['Varejo']. *)
#[export] Instance TipoCliente_Key : Frame.Key TipoCliente :=
  {| Frame.key_eq_dec := TipoCliente_eq_dec;
     Frame.key_leb := fun a b => String.leb (tipo_label a) (tipo_label b) |}.

Definition pair_eq_dec {A B : Type} `{Frame.Key A} `{Frame.Key B}
  (x y : A * B) : {x = y} + {x <> y}.
Proof.
  destruct x as [a b], y as [a' b'].
  destruct (Frame.key_eq_dec a a') as [Ha | Ha].
  - destruct (Frame.key_eq_dec b b') as [Hb | Hb].
    + left. now subst.
    + right. intros E. apply Hb. now inversion E.
  - right. intros E. apply Ha. now inversion E.
Defined.

(** Composite keys are ordered lexicographically. *)
#[export] Instance pair_Key {A B : Type} `{Frame.Key A} `{Frame.Key B}
  : Frame.Key (A * B) :=
  {| Frame.key_eq_dec := pair_eq_dec;
     Frame.key_leb := fun x y =>
       if Frame.key_eq_dec (fst x) (fst y)
       then Frame.key_leb (snd x) (snd y)
       else Frame.key_leb (fst x) (fst y) |}.

(** ** The clock

    [datetime.now()] is read several times during one call.  A computation
    that reads the clock receives the sequence of readings and the number of
    readings made so far, and returns the new count. *)

Module Clock.

Definition readings : Type := nat -> Z.

Definition M (A : Type) : Type := readings -> nat -> A * nat.

Definition ret {A : Type} (a : A) : M A := fun _ n => (a, n).

Definition bind {A B : Type} (m : M A) (k : A -> M B) : M B :=
  fun c n => let (a, n') := m c n in k a c n'.

(** One reading, in nanoseconds since the epoch. *)
Definition now : M Z := fun c n => (c n, S n).

Definition run {A : Type} (m : M A) (c : readings) : A := fst (m c 0%nat).

(** Time does not go backwards between two readings. *)
Definition monotone (c : readings) : Prop :=
  forall i j : nat, (i <= j)%nat -> c i <= c j.

(** [datetime.now().year]. *)
Definition year (t : Z) : Z := Calendar.year_of (Calendar.date_of_instant t).

End Clock.

Notation "x <- m ;; k" := (Clock.bind m (fun x => k))
  (at level 61, m at next level, right associativity).

(** ** [FilterComponent] *)

Module FilterComponent.

(** The dictionary [self._filters]: a key that is missing or bound to
    [None] is [None] here. *)
Record Filters : Type := mkFilters {
  lojas : option (list string);
  tiposCliente : option (list TipoCliente);
  data_inicio : option Z;
  data_fim : option Z
}.

(** The entry that stands for the whole company in the store selector. *)
Definition Empresa : string := "Empresa".

(** Truth value of [self._filters.get(key)] for a list: [None] and the
    empty list are false. *)
Definition truthy {A : Type} (o : option (list A)) : bool :=
  match o with
  | Some (_ :: _) => true
  | _ => false
  end.

Definition values {A : Type} (o : option (list A)) : list A :=
  match o with
  | Some l => l
  | None => []
  end.

Definition tipo_eqb (a b : TipoCliente) : bool :=
  if TipoCliente_eq_dec a b then true else false.

Definition filter_lojas (f : Filters) (df : DataFrame) : DataFrame :=
  if truthy (lojas f) then
    if negb (Frame.isin String.eqb Empresa (values (lojas f))) then
      filter (fun r => Frame.isin String.eqb (loja r) (values (lojas f))) df
    else df
  else df.

Definition filter_tipos (f : Filters) (df : DataFrame) : DataFrame :=
  if truthy (tiposCliente f) then
    filter (fun r => Frame.isin tipo_eqb (tipoCliente r)
                       (values (tiposCliente f))) df
  else df.

(** A timestamp is always true, so the test is on presence only. *)
Definition filter_datas (f : Filters) (df : DataFrame) : DataFrame :=
  match data_inicio f, data_fim f with
  | Some inicio, Some fim =>
      filter (fun r => (inicio <=? data r) && (data r <=? fim)) df
  | _, _ => df
  end.

Definition apply_filters (f : Filters) (df : DataFrame) : DataFrame :=
  filter_datas f (filter_tipos f (filter_lojas f df)).

End FilterComponent.

(** ** [MetricsCalculator] *)

Module MetricsCalculator.

Import Frame.

Definition calculate_total (df : DataFrame) (column : Column) : Q :=
  sum_col (col column) df.

(** The mask of [calculate_ytd]: the year column equals the reference year
    and the (midnight) date is not after the instant read from the clock. *)
Definition ytd_mask (reference_year current_date : Z) (r : Row) : bool :=
  (ano r =? reference_year) && (Calendar.midnight (data r) <=? current_date).

Definition calculate_ytd (df : DataFrame) (column : Column)
  (reference_year : option Z) : Clock.M Q :=
  reference_year <-
    match reference_year with
    | Some y => Clock.ret y
    | None => t <- Clock.now ;; Clock.ret (Clock.year t)
    end ;;
  current_date <- Clock.now ;;
  Clock.ret (sum_col (col column)
               (filter (ytd_mask reference_year current_date) df)).

Record YoY : Type := mkYoY {
  current_value : Q;
  previous_value : Q;
  difference : Q;
  percentage : float64
}.

Definition calculate_yoy (df : DataFrame) (column : Column)
  (current_year previous_year : option Z) : Clock.M YoY :=
  current_year <-
    match current_year with
    | Some y => Clock.ret y
    | None => t <- Clock.now ;; Clock.ret (Clock.year t)
    end ;;
  let previous_year :=
    match previous_year with
    | Some y => y
    | None => current_year - 1
    end in
  current_ytd <- calculate_ytd df column (Some current_year) ;;
  previous_ytd <- calculate_ytd df column (Some previous_year) ;;
  let difference := (current_ytd - previous_ytd)%Q in
  let percentage :=
    if negb (Qeq_bool previous_ytd 0)
    then Float.mul (Float.div difference previous_ytd) 100
    else Finite 0 in
  Clock.ret (mkYoY current_ytd previous_ytd difference percentage).

(** *** Period series *)

(** The [freq] strings the callers use: ['D'], ['W'] (weeks that end on
    Sunday) and ['M'] (calendar months). *)
Inductive Period : Type := D | W | M.

(** The number of the bucket a date falls in: the day itself, the
    Monday-to-Sunday week counted from the week of 1969-12-29, or the
    month counted from year 0. *)
Definition bin_index (p : Period) (d : Z) : Z :=
  match p with
  | D => d
  | W => (d + 3) / 7
  | M => Calendar.month_index d
  end.

(** The timestamp pandas labels a bucket with: the day for ['D'], and the
    right edge for ['W'] and ['M'] (the Sunday that closes the week, the
    last day of the month), whose default is [label='right']. *)
Definition bin_label (p : Period) (i : Z) : Z :=
  match p with
  | D => i
  | W => 7 * i + 3
  | M => Calendar.month_start (i + 1) - 1
  end.

(** First day of a bucket. *)
Definition bin_start (p : Period) (i : Z) : Z :=
  match p with
  | D => i
  | W => 7 * i - 3
  | M => Calendar.month_start i
  end.

Definition bin_rows (p : Period) (i : Z) (df : DataFrame) : DataFrame :=
  filter (fun r => bin_index p (data r) =? i) df.

(** [df.groupby(pd.Grouper(key='data', freq=period))[column].sum()
    .reset_index()].  A [Grouper] with a frequency, used as the only key,
    bins like [resample]: every bucket from the one of the earliest row to
    the one of the latest row is present, and the sum of a bucket without
    rows is 0. *)
Definition aggregate_by_period (df : DataFrame) (column : Column)
  (period : Period) : list (Z * Q) :=
  match map (fun r => bin_index period (data r)) df with
  | [] => []
  | i :: rest =>
      map (fun k => (bin_label period k,
                     sum_col (col column) (bin_rows period k df)))
          (zrange (zmin i rest) (zmax i rest))
  end.

(** [df.groupby([pd.Grouper(key='data', freq=period), 'loja'])[column]
    .sum().reset_index()]: with a second key only the observed
    (bucket, store) pairs are groups. *)
Definition aggregate_by_store_and_period (df : DataFrame) (column : Column)
  (period : Period) : list (Z * string * Q) :=
  map (fun g => (bin_label period (fst (fst g)), snd (fst g),
                 sum_col (col column) (snd g)))
      (groupby (fun r => (bin_index period (data r), loja r)) df).

(** *** Breakdown by store and channel *)

(** A row of [groupby(...).agg({'quantidade': 'sum', 'receita': 'sum',
    'lucro': 'sum'}).reset_index()]. *)
Record Sums (K : Type) : Type := mkSums {
  s_key : K;
  s_quantidade : Q;
  s_receita : Q;
  s_lucro : Q
}.
Arguments mkSums {K}.
Arguments s_key {K}.
Arguments s_quantidade {K}.
Arguments s_receita {K}.
Arguments s_lucro {K}.

Definition s_col {K : Type} (c : Column) (s : Sums K) : Q :=
  match c with
  | Quantidade => s_quantidade s
  | Receita => s_receita s
  | Lucro => s_lucro s
  end.

Definition agg_sums {K : Type} `{Key K} (key : Row -> K) (df : DataFrame)
  : list (Sums K) :=
  map (fun g => mkSums (fst g)
                  (sum_col quantidade (snd g))
                  (sum_col receita (snd g))
                  (sum_col lucro (snd g)))
      (groupby key df).

Record ChannelMetrics : Type := mkChannelMetrics {
  cm_sums : Sums (string * TipoCliente);
  ticket_medio : float64;
  lucro_medio : float64
}.

Definition calculate_by_store_and_channel (df : DataFrame)
  : list ChannelMetrics :=
  let metrics := agg_sums (fun r => (loja r, tipoCliente r)) df in
  map (fun m =>
         mkChannelMetrics m
           (Float.round2 (Float.div (s_receita m) (s_quantidade m)))
           (Float.round2 (Float.div (s_lucro m) (s_quantidade m))))
      metrics.

(** *** Distribution of the sales of a store over its channels *)

Record Distribution : Type := mkDistribution {
  sd_loja : string;
  sd_tipoCliente : TipoCliente;
  sd_quantidade : Q;
  percentual : float64
}.

(** [groupby(['loja', 'tipoCliente'])['quantidade'].sum().reset_index()]. *)
Definition sales_by_store_channel (df : DataFrame)
  : list (string * TipoCliente * Q) :=
  map (fun g => (fst g, sum_col quantidade (snd g)))
      (groupby (fun r => (loja r, tipoCliente r)) df).

(** [groupby('loja')['quantidade'].transform('sum')], at the row of store
    [l]: the sum of the column over the rows of the same store. *)
Definition total_by_store (t : list (string * TipoCliente * Q)) (l : string)
  : Q :=
  sumQ (map snd (filter (fun x => String.eqb (fst (fst x)) l) t)).

Definition calculate_sales_distribution (df : DataFrame)
  : list Distribution :=
  let t := sales_by_store_channel df in
  map (fun x =>
         mkDistribution (fst (fst x)) (snd (fst x)) (snd x)
           (Float.round2
              (Float.mul
                 (Float.div (snd x) (total_by_store t (fst (fst x))))
                 100)))
      t.

(** *** Year over year, by store *)

(** [left.merge(right, on='loja', how='outer')]: the keys of both sides,
    sorted; for a key, every pairing of a left row with a right row, and a
    missing side where one table has no row for the key. *)
Definition merge_outer (left right : list (Sums string))
  : list (string * option (Sums string) * option (Sums string)) :=
  flat_map
    (fun k =>
       let ls := filter (fun s => String.eqb (s_key s) k) left in
       let rs := filter (fun s => String.eqb (s_key s) k) right in
       match ls, rs with
       | [], _ => map (fun r => (k, None, Some r)) rs
       | _, [] => map (fun l => (k, Some l, None)) ls
       | _, _ =>
           map (fun lr => (k, Some (fst lr), Some (snd lr)))
               (list_prod ls rs)
       end)
    (group_keys (map s_key left ++ map s_key right)).

(** A cell of the merged table after [fillna(0)]. *)
Definition cell (c : Column) (o : option (Sums string)) : Q :=
  match o with
  | Some s => s_col c s
  | None => 0%Q
  end.

(** [((atual - anterior) / anterior * 100).replace([inf, -inf], 0)
    .fillna(0)]. *)
Definition var_pct (atual anterior : Q) : float64 :=
  Float.fillna 0
    (Float.replace_inf 0
       (Float.mul (Float.div (atual - anterior)%Q anterior) 100)).

Record Comparison : Type := mkComparison {
  c_loja : string;
  atual : Column -> Q;
  anterior : Column -> Q;
  var_pct_of : Column -> float64
}.

Definition quantidade_atual (c : Comparison) : Q := atual c Quantidade.
Definition receita_atual (c : Comparison) : Q := atual c Receita.
Definition lucro_atual (c : Comparison) : Q := atual c Lucro.
Definition quantidade_anterior (c : Comparison) : Q := anterior c Quantidade.
Definition receita_anterior (c : Comparison) : Q := anterior c Receita.
Definition lucro_anterior (c : Comparison) : Q := anterior c Lucro.
Definition var_quantidade_pct (c : Comparison) : float64 :=
  var_pct_of c Quantidade.
Definition var_receita_pct (c : Comparison) : float64 :=
  var_pct_of c Receita.
Definition var_lucro_pct (c : Comparison) : float64 := var_pct_of c Lucro.

Definition year_rows (y : Z) (df : DataFrame) : DataFrame :=
  filter (fun r => ano r =? y) df.

Definition compare_years (df : DataFrame) (current_year previous_year : Z)
  : list Comparison :=
  let current_data := agg_sums loja (year_rows current_year df) in
  let previous_data := agg_sums loja (year_rows previous_year df) in
  map (fun row =>
         let a := fun c => cell c (snd (fst row)) in
         let p := fun c => cell c (snd row) in
         mkComparison (fst (fst row)) a p (fun c => var_pct (a c) (p c)))
      (merge_outer current_data previous_data).

Definition calculate_yoy_by_store (df : DataFrame)
  (current_year previous_year : option Z) : Clock.M (list Comparison) :=
  current_year <-
    match current_year with
    | Some y => Clock.ret y
    | None => t <- Clock.now ;; Clock.ret (Clock.year t)
    end ;;
  let previous_year :=
    match previous_year with
    | Some y => y
    | None => current_year - 1
    end in
  Clock.ret (compare_years df current_year previous_year).

(** *** Volume against the averages, by store *)

Record VolumeMetrics : Type := mkVolumeMetrics {
  vm_sums : Sums string;
  volume_percentual : float64;
  vm_ticket_medio : float64;
  vm_lucro_medio : float64
}.

(** The share of the quantity is not rounded; the two averages are. *)
Definition calculate_volume_vs_metrics (df : DataFrame)
  : list VolumeMetrics :=
  let store_metrics := agg_sums loja df in
  let total_quantity := sumQ (map s_quantidade store_metrics) in
  map (fun m =>
         mkVolumeMetrics m
           (Float.mul (Float.div (s_quantidade m) total_quantity) 100)
           (Float.round2 (Float.div (s_receita m) (s_quantidade m)))
           (Float.round2 (Float.div (s_lucro m) (s_quantidade m))))
      store_metrics.

End MetricsCalculator.

(** ** The accessors of [DataLoader] *)

Module DataLoaderAccessors.

(** [sorted(self._data['loja'].unique().tolist())]. *)
Definition get_stores (df : DataFrame) : list string :=
  Frame.group_keys (map loja df).

(** [sorted(self._data['tipoCliente'].unique().tolist())]. *)
Definition get_customer_types (df : DataFrame) : list TipoCliente :=
  Frame.group_keys (map tipoCliente df).

(** [(self._data['data'].min(), self._data['data'].max())]; on a table
    without rows both are [NaT], here [None]. *)
Definition get_date_range (df : DataFrame) : option (Z * Z) :=
  match map data df with
  | [] => None
  | d :: rest => Some (Frame.zmin d rest, Frame.zmax d rest)
  end.

End DataLoaderAccessors.

(** ** The pages: what they feed to the engine *)

Module PerformancePage.

Import FilterComponent.

(** The table of the year-over-year section: the whole table, restricted
    by the store and the customer-type selections only. *)
Definition df_for_yoy (filters : Filters) (df_all : DataFrame) : DataFrame :=
  let df1 :=
    if truthy (lojas filters)
       && negb (Frame.isin String.eqb Empresa (values (lojas filters)))
    then filter (fun r => Frame.isin String.eqb (loja r)
                            (values (lojas filters))) df_all
    else df_all in
  if truthy (tiposCliente filters)
  then filter (fun r => Frame.isin tipo_eqb (tipoCliente r)
                          (values (tiposCliente filters))) df1
  else df1.

(** The comparison shown on the page: the current year is the year of the
    clock, the previous year the one before, both passed explicitly. *)
Definition yoy_comparison (filters : Filters) (df_all : DataFrame)
  : Clock.M (list MetricsCalculator.Comparison) :=
  t <- Clock.now ;;
  let current_year := Clock.year t in
  let previous_year := current_year - 1 in
  MetricsCalculator.calculate_yoy_by_store (df_for_yoy filters df_all)
    (Some current_year) (Some previous_year).

End PerformancePage.

Module RevenuePage.

Import FilterComponent.

(** The weekly series of the trend chart: one series when exactly one
    store, not the company-wide entry, is selected; one series per store
    otherwise. *)
Inductive WeeklyData : Type :=
| Aggregated (series : list (Z * Q))
| ByStore (series : list (Z * string * Q)).

Definition weekly_data (filters : Filters) (filtered_df : DataFrame)
  : WeeklyData :=
  if truthy (lojas filters)
     && (List.length (values (lojas filters)) =? 1)%nat
     && negb (Frame.isin String.eqb Empresa (values (lojas filters)))
  then Aggregated
         (MetricsCalculator.aggregate_by_period filtered_df Receita
            MetricsCalculator.W)
  else ByStore
         (MetricsCalculator.aggregate_by_store_and_period filtered_df Receita
            MetricsCalculator.W).

End RevenuePage.

(** ** The predicate a row has to satisfy to pass the filters *)

Definition store_ok (f : FilterComponent.Filters) (r : Row) : bool :=
  negb (FilterComponent.truthy (FilterComponent.lojas f))
  || Frame.isin String.eqb FilterComponent.Empresa
       (FilterComponent.values (FilterComponent.lojas f))
  || Frame.isin String.eqb (loja r)
       (FilterComponent.values (FilterComponent.lojas f)).

Definition tipo_ok (f : FilterComponent.Filters) (r : Row) : bool :=
  negb (FilterComponent.truthy (FilterComponent.tiposCliente f))
  || Frame.isin FilterComponent.tipo_eqb (tipoCliente r)
       (FilterComponent.values (FilterComponent.tiposCliente f)).

Definition date_ok (f : FilterComponent.Filters) (r : Row) : bool :=
  match FilterComponent.data_inicio f, FilterComponent.data_fim f with
  | Some inicio, Some fim => (inicio <=? data r) && (data r <=? fim)
  | _, _ => true
  end.

Definition passes (f : FilterComponent.Filters) (r : Row) : bool :=
  store_ok f r && tipo_ok f r && date_ok f r.

(** The date window of a year up to a day: from 1 January to the earlier of
    that day and 31 December. *)
Definition year_window (y today : Z) : FilterComponent.Filters :=
  FilterComponent.mkFilters None None
    (Some (Calendar.year_start y))
    (Some (Z.min today (Calendar.year_start (y + 1) - 1))).

(** Keys in ascending order, neighbours compared with the order of the
    keys. *)
Definition ascending {K : Type} `{Frame.Key K} (l : list K) : Prop :=
  Sorted (fun a b => Frame.key_leb a b = true) l.

(** ** Auxiliary definitions used to state the properties *)

(** The years a call works with once the defaults are resolved: an absent
    current year is the year of the first clock reading, an absent previous
    year is the year before the current one. *)
Definition current_of (current_year : option Z) (c : Clock.readings) : Z :=
  match current_year with
  | Some y => y
  | None => Clock.year (c 0%nat)
  end.

Definition previous_of (current_year previous_year : option Z)
  (c : Clock.readings) : Z :=
  match previous_year with
  | Some y => y
  | None => current_of current_year c - 1
  end.

(** The reading [calculate_yoy] hands to the previous-year sum: the second
    one, or the third when the current year had to be read from the clock. *)
Definition previous_reading (current_year : option Z) : nat :=
  match current_year with
  | Some _ => 1%nat
  | None => 2%nat
  end.

(** The copy of a filter specification whose store selection is absent. *)
Definition without_lojas (f : FilterComponent.Filters)
  : FilterComponent.Filters :=
  FilterComponent.mkFilters None (FilterComponent.tiposCliente f)
    (FilterComponent.data_inicio f) (FilterComponent.data_fim f).

(** The copy of a filter specification whose date bounds are absent. *)
Definition without_datas (f : FilterComponent.Filters)
  : FilterComponent.Filters :=
  FilterComponent.mkFilters (FilterComponent.lojas f)
    (FilterComponent.tiposCliente f) None None.

(** A row of the loaded table: the year column is derived from the date. *)
Definition row (y m d : Z) (l : string) (t : TipoCliente) (q rc lu : Q)
  : Row :=
  DataLoader.process_row
    (DataLoader.mkRaw (Calendar.days_from_civil y m d) l
       (match t with Atacado => true | Varejo => false end) q rc lu).

(** A clock that stands still at noon of a day. *)
Definition noon (y m d : Z) : Clock.readings :=
  fun _ => Calendar.midnight (Calendar.days_from_civil y m d)
           + 12 * 3600 * 1000000000.

(** Small tables used as concrete inputs. *)
Definition two_stores : DataFrame :=
  [row 2024 1 1 "Store-1" Varejo 1 10 2;
   row 2024 1 2 "Store-2" Atacado 2 30 5].

Definition zero_quantity : DataFrame :=
  [row 2024 1 1 "A" Varejo 0 10 2].

Definition stores_abc : DataFrame :=
  [row 2024 1 1 "A" Varejo 50 500 20;
   row 2024 1 3 "B" Atacado 2 20 3;
   row 2023 1 24 "B" Varejo 3 30 4;
   row 2023 12 31 "C" Varejo 4 40 5].

(** A default for positions outside a comparison table. *)
Definition no_comparison : MetricsCalculator.Comparison :=
  MetricsCalculator.mkComparison EmptyString
    (fun _ => 0%Q) (fun _ => 0%Q) (fun _ => NaN).

Definition sparse_weeks : DataFrame :=
  [row 2024 1 1 "A" Varejo 1 10 2;
   row 2024 1 3 "A" Atacado 2 20 3;
   row 2024 1 24 "A" Varejo 3 30 4].

(** What numpy gives for [a / 0]. *)
Definition zero_division (a : Q) : float64 :=
  match (a ?= 0)%Q with
  | Eq => NaN
  | Gt => PosInf
  | Lt => NegInf
  end.

(** The reading of the specification for the previous year of
    [year_over_year]: the rows of the reference year whose day of the year
    (month, then day) is not after the one of the processing date. *)
Definition same_day_of_year_mask (reference_year today : Z) (r : Row) : bool :=
  (ano r =? reference_year)
  && ((Calendar.month_of (data r) <? Calendar.month_of today)
      || ((Calendar.month_of (data r) =? Calendar.month_of today)
          && (Calendar.day_of (data r) <=? Calendar.day_of today))).

Definition ytd_up_to_same_day (df : DataFrame) (column : Column)
  (reference_year now : Z) : Q :=
  Frame.sum_col (col column)
    (filter (same_day_of_year_mask reference_year
               (Calendar.date_of_instant now)) df).

(** One entry of a period series: the bucket [i], as pandas labels it, with
    the sum of the column over the rows of the bucket. *)
Definition bucket_entry (df : DataFrame) (column : Column)
  (p : MetricsCalculator.Period) (i : Z) : Z * Q :=
  (MetricsCalculator.bin_label p i,
   Frame.sum_col (col column) (MetricsCalculator.bin_rows p i df)).

(** The rows of one store in the distribution table. *)
Definition store_rows (s : string)
  (t : list MetricsCalculator.Distribution)
  : list MetricsCalculator.Distribution :=
  filter (fun d => String.eqb (MetricsCalculator.sd_loja d) s) t.

(** The total quantity of a store in a table. *)
Definition store_quantity (s : string) (df : DataFrame) : Q :=
  Frame.sum_col quantidade (filter (fun r => String.eqb (loja r) s) df).

(** The key of [groupby(['loja', 'tipoCliente'])]. *)
Definition store_channel_key (r : Row) : string * TipoCliente :=
  (loja r, tipoCliente r).

(** The keys of the groups of one store. *)
Definition keys_of_store (s : string) (df : DataFrame)
  : list (string * TipoCliente) :=
  filter (fun k => String.eqb (fst k) s)
         (Frame.group_keys (map store_channel_key df)).

(** What a row of the merged table holds on one side for the key [k]: a row
    of that side with that key, or nothing when the side has no such row. *)
Definition side_ok (k : string)
  (side : list (MetricsCalculator.Sums string))
  (o : option (MetricsCalculator.Sums string)) : Prop :=
  match o with
  | Some s => In s side /\ MetricsCalculator.s_key s = k
  | None => ~ In k (map MetricsCalculator.s_key side)
  end.





(** The rows of one store and one customer type. *)
Definition store_channel_rows (s : string) (t : TipoCliente)
  (df : DataFrame) : DataFrame :=
  filter (fun r => String.eqb (loja r) s
                   && FilterComponent.tipo_eqb (tipoCliente r) t) df.


(** * Properties *)

(** ** The calendar *)

Section CalendarFacts.

Import Calendar.

Ltac split_ifs :=
  repeat match goal with
  | |- context [if ?a <? ?b then _ else _] => destruct (Z.ltb_spec a b)
  | |- context [if ?a <=? ?b then _ else _] => destruct (Z.leb_spec a b)
  | |- context [if ?a >? ?b then _ else _] =>
      rewrite (Z.gtb_ltb a b); destruct (Z.ltb_spec b a)
  end.

(** Within an era, [yoe_of] finds the (March-based) year a day falls in;
    only a year that ends on 29 February has a 366th day. *)
Lemma yoe_of_bounds (doe : Z) :
  0 <= doe <= 146096 ->
  let yoe := yoe_of doe in
  let ys := 365 * yoe + yoe / 4 - yoe / 100 in
  0 <= yoe <= 399 /\ ys <= doe /\ doe - ys <= 365 /\
  (doe - ys = 365 ->
   (yoe + 1) mod 4 = 0 /\ ((yoe + 1) mod 100 <> 0 \/ yoe = 399)).
Proof.
  unfold yoe_of. cbv zeta. intros H.
  Z.div_mod_to_equations. lia.
Qed.

(** A day lies in the year [year_of] gives it. *)
Lemma year_of_bounds (z : Z) :
  year_start (year_of z) <= z < year_start (year_of z + 1).
Proof.
  unfold year_start, year_of, civil_from_days, days_from_civil.
  cbv zeta. cbn [fst snd].
  replace (1 <=? 2) with true by reflexivity.
  replace (1 >? 2) with false by reflexivity.
  set (z' := z + 719468).
  set (era := z' / 146097).
  set (doe := z' - era * 146097).
  assert (Hdoe : 0 <= doe <= 146096)
    by (subst doe era; Z.div_mod_to_equations; lia).
  pose proof (yoe_of_bounds doe Hdoe) as Hy. cbv zeta in Hy. revert Hy.
  generalize (yoe_of doe) as yoe. intros yoe.
  assert (Hz : z = era * 146097 + doe - 719468) by (subst doe z'; lia).
  rewrite Hz. clearbody era doe. clear Hz z' z.
  intros (Hy1 & Hy2 & Hy3 & Hy4).
  split_ifs; Z.div_mod_to_equations; lia.
Qed.

Lemma year_start_mono (a b : Z) : a <= b -> year_start a <= year_start b.
Proof.
  unfold year_start, days_from_civil. cbv zeta.
  replace (1 <=? 2) with true by reflexivity.
  replace (1 >? 2) with false by reflexivity.
  intros H. Z.div_mod_to_equations. lia.
Qed.

(** Later days are in later (or the same) years. *)
Lemma year_of_mono (a b : Z) : a <= b -> year_of a <= year_of b.
Proof.
  intros H.
  destruct (Z_le_gt_dec (year_of a) (year_of b)) as [L | G]; [exact L |].
  pose proof (year_of_bounds a) as Ha.
  pose proof (year_of_bounds b) as Hb.
  pose proof (year_start_mono (year_of b + 1) (year_of a)) as Hs.
  lia.
Qed.

(** Months follow one another. *)
Lemma month_start_lt (mi : Z) : month_start mi < month_start (mi + 1).
Proof.
  unfold month_start, days_from_civil. cbv zeta.
  split_ifs; Z.div_mod_to_equations; lia.
Qed.

Lemma month_start_mono (a b : Z) : a < b -> month_start a < month_start b.
Proof.
  intros H. replace b with (a + 1 + Z.of_nat (Z.to_nat (b - a - 1))) by lia.
  induction (Z.to_nat (b - a - 1)) as [| n IH].
  - rewrite Z.add_0_r. apply month_start_lt.
  - pose proof (month_start_lt (a + 1 + Z.of_nat n)) as Hn.
    replace (a + 1 + Z.of_nat (S n)) with (a + 1 + Z.of_nat n + 1) by lia.
    lia.
Qed.

(** A row stamped at midnight is not after an instant exactly when its
    date is not after the date of the instant. *)
Lemma midnight_le_instant (d t : Z) :
  midnight d <= t <-> d <= date_of_instant t.
Proof.
  unfold midnight, date_of_instant, ns_per_day.
  split; intros H; Z.div_mod_to_equations; lia.
Qed.

Lemma date_of_instant_mono (s t : Z) :
  s <= t -> date_of_instant s <= date_of_instant t.
Proof.
  unfold date_of_instant, ns_per_day. intros H.
  Z.div_mod_to_equations. lia.
Qed.

End CalendarFacts.

(** ** Sums and groups *)

Section FrameFacts.

Import Frame.
Local Open Scope Q_scope.

Lemma sumQ_app (l1 l2 : list Q) : sumQ (l1 ++ l2) == sumQ l1 + sumQ l2.
Proof.
  induction l1 as [| x l1 IH]; simpl.
  - ring.
  - rewrite IH. ring.
Qed.

Lemma sumQ_map_ext {A : Type} (f g : A -> Q) (l : list A) :
  (forall x, In x l -> f x == g x) -> sumQ (map f l) == sumQ (map g l).
Proof.
  induction l as [| x l IH]; simpl; intros H.
  - reflexivity.
  - rewrite (H x (or_introl eq_refl)), IH; [reflexivity |].
    intros y Hy. apply H. now right.
Qed.

Lemma sumQ_map_plus {A : Type} (f g : A -> Q) (l : list A) :
  sumQ (map (fun x => f x + g x) l) == sumQ (map f l) + sumQ (map g l).
Proof.
  induction l as [| x l IH]; simpl.
  - ring.
  - rewrite IH. ring.
Qed.

Lemma sumQ_map_zero {A : Type} (l : list A) :
  sumQ (map (fun _ => 0) l) == 0.
Proof.
  induction l as [| x l IH]; simpl.
  - reflexivity.
  - rewrite IH. ring.
Qed.

Lemma sumQ_map_scale {A : Type} (f : A -> Q) (c : Q) (l : list A) :
  sumQ (map (fun x => f x * c) l) == sumQ (map f l) * c.
Proof.
  induction l as [| x l IH]; simpl.
  - ring.
  - rewrite IH. ring.
Qed.

Context {K : Type} `{HK : Key K}.

Lemma key_eqb_true (a b : K) : key_eqb a b = true <-> a = b.
Proof. unfold key_eqb. destruct (key_eq_dec a b); split; congruence. Qed.

Lemma key_eqb_refl (a : K) : key_eqb a a = true.
Proof. now apply key_eqb_true. Qed.

(** Sorting only reorders the keys. *)
Lemma insert_sorted_perm (k : K) (l : list K) :
  Permutation (insert_sorted k l) (k :: l).
Proof.
  induction l as [| h t IH]; simpl.
  - reflexivity.
  - destruct (key_leb k h).
    + reflexivity.
    + rewrite IH. apply perm_swap.
Qed.

Lemma sort_keys_perm (l : list K) : Permutation (sort_keys l) l.
Proof.
  induction l as [| h t IH]; simpl.
  - reflexivity.
  - rewrite insert_sorted_perm. now constructor.
Qed.

Lemma group_keys_In (x : K) (l : list K) : In x (group_keys l) <-> In x l.
Proof.
  unfold group_keys. split; intros H.
  - apply (nodup_In key_eq_dec).
    revert H. apply Permutation_in, sort_keys_perm.
  - apply (nodup_In key_eq_dec) in H.
    revert H. apply Permutation_in, Permutation_sym, sort_keys_perm.
Qed.

Lemma group_keys_NoDup (l : list K) : NoDup (group_keys l).
Proof.
  unfold group_keys.
  apply (Permutation_NoDup (Permutation_sym (sort_keys_perm _))).
  apply NoDup_nodup.
Qed.

(** Among distinct keys, exactly one is the key of a given row. *)
Lemma sumQ_indicator (x : K) (v : Q) (ks : list K) :
  NoDup ks ->
  sumQ (map (fun k => if key_eqb x k then v else 0) ks)
  == if in_dec key_eq_dec x ks then v else 0.
Proof.
  induction 1 as [| k ks Hk Hnd IH]; simpl.
  - reflexivity.
  - rewrite IH. unfold key_eqb.
    destruct (key_eq_dec x k) as [E | N].
    + subst k. destruct (key_eq_dec x x); [| congruence].
      destruct (in_dec key_eq_dec x ks); [contradiction | ring].
    + destruct (key_eq_dec k x); [congruence |].
      destruct (in_dec key_eq_dec x ks); ring.
Qed.

(** The groups partition the table: summing a column group by group gives
    the sum of the column. *)
Lemma sum_over_groups (key : Row -> K) (f : Row -> Q) (ks : list K)
  (df : DataFrame) :
  NoDup ks ->
  (forall r, In r df -> In (key r) ks) ->
  sumQ (map (fun k => sum_col f (group_rows key k df)) ks) == sum_col f df.
Proof.
  intros Hnd. induction df as [| r df IH]; intros Hin.
  - unfold group_rows, sum_col. simpl. apply sumQ_map_zero.
  - transitivity
      (sumQ (map (fun k => (if key_eqb (key r) k then f r else 0)
                           + sum_col f (group_rows key k df)) ks)).
    + apply sumQ_map_ext. intros k _. unfold group_rows, sum_col. simpl.
      destruct (key_eqb (key r) k); simpl; ring.
    + rewrite sumQ_map_plus, IH, sumQ_indicator by (auto with datatypes).
      destruct (in_dec key_eq_dec (key r) ks) as [_ | N].
      * unfold sum_col. simpl. reflexivity.
      * exfalso. apply N, Hin. now left.
Qed.

Lemma groupby_sums (key : Row -> K) (f : Row -> Q) (df : DataFrame) :
  sumQ (map (fun g => sum_col f (snd g)) (groupby key df)) == sum_col f df.
Proof.
  unfold groupby. rewrite map_map. simpl.
  apply sum_over_groups.
  - apply group_keys_NoDup.
  - intros r Hr. apply group_keys_In. now apply in_map.
Qed.

Lemma groupby_keys (key : Row -> K) (df : DataFrame) :
  map fst (groupby key df) = group_keys (map key df).
Proof. unfold groupby. rewrite map_map. simpl. apply map_id. Qed.

(** A key that labels no row has an empty group. *)
Lemma group_rows_nil (key : Row -> K) (k : K) (df : DataFrame) :
  ~ In k (map key df) -> group_rows key k df = [].
Proof.
  intros H. unfold group_rows.
  induction df as [| r df IH]; simpl in *; [reflexivity |].
  destruct (key_eqb (key r) k) eqn:E.
  - apply key_eqb_true in E. exfalso. apply H. now left.
  - apply IH. intros Hin. apply H. now right.
Qed.

End FrameFacts.

(** ** Filters *)

Section FilterFacts.

Import Frame FilterComponent.

Lemma isin_In (x : string) (l : list string) :
  isin String.eqb x l = true <-> In x l.
Proof.
  unfold isin. rewrite existsb_exists. split.
  - intros (y & Hy & E). apply String.eqb_eq in E. now subst.
  - intros H. exists x. split; [exact H | apply String.eqb_refl].
Qed.

Lemma filter_lojas_sentinel (f : Filters) (df : DataFrame) :
  In Empresa (values (lojas f)) -> filter_lojas f df = df.
Proof.
  intros H. unfold filter_lojas.
  apply isin_In in H. rewrite H. simpl. now destruct (truthy (lojas f)).
Qed.

End FilterFacts.

Section FilterClaims.

Import Frame FilterComponent.

(** C6.  When the selected stores contain the company-wide entry
    ["Empresa"], [apply_filters] gives the result it gives with no store
    selection at all, whatever other names are selected with it.  And the
    entry is never compared with the store of a row: a row whose store is
    literally ["Empresa"] passes the store step only when that step keeps
    the whole table. *)
Theorem sentinel_skips_store_filter (f : Filters) (df : DataFrame) :
  In Empresa (values (lojas f)) ->
  apply_filters f df = apply_filters (without_lojas f) df
  /\ (forall (g : Filters) (r : Row),
        In r (filter_lojas g df) -> loja r = Empresa ->
        filter_lojas g df = df).
Proof.
  intros H. split.
  - unfold apply_filters. rewrite (filter_lojas_sentinel f df H).
    reflexivity.
  - intros g r Hr Hl. unfold filter_lojas in *.
    destruct (truthy (lojas g)); [| reflexivity].
    destruct (isin String.eqb Empresa (values (lojas g))) eqn:E;
      [reflexivity |].
    simpl in Hr. apply filter_In in Hr. destruct Hr as [_ Hr].
    rewrite Hl in Hr. congruence.
Qed.

(** The selection \{Empresa, Store-1\} still returns the rows of Store-2. *)
Lemma sentinel_skips_store_filter_witness :
  apply_filters (mkFilters (Some ["Empresa"; "Store-1"]%string) None None None)
    two_stores
  = two_stores.
Proof.
  refine (proj1 (sentinel_skips_store_filter
    (mkFilters (Some ["Empresa"; "Store-1"]%string) None None None)
    two_stores _)).
  simpl. now left.
Defined.

(** C10.  The date restriction is applied only when both bounds are
    present: with the start or the end missing, [apply_filters] gives the
    result it gives with no date bound, so rows of every date are kept. *)
Theorem one_date_bound_restricts_nothing (f : Filters) (df : DataFrame) :
  data_inicio f = None \/ data_fim f = None ->
  apply_filters f df = apply_filters (without_datas f) df
  /\ (forall r, In r (filter_tipos f (filter_lojas f df)) ->
                In r (apply_filters f df)).
Proof.
  intros H.
  assert (E : forall d, filter_datas f d = d).
  { intros d. unfold filter_datas.
    destruct H as [H | H]; rewrite H; [reflexivity |].
    now destruct (data_inicio f). }
  split.
  - unfold apply_filters. rewrite E. reflexivity.
  - intros r Hr. unfold apply_filters. now rewrite E.
Qed.

(** A start bound of 2024-01-02 alone does not drop the row of
    2024-01-01. *)
Lemma one_date_bound_restricts_nothing_witness :
  apply_filters
    (mkFilters None None (Some (Calendar.days_from_civil 2024 1 2)) None)
    two_stores
  = two_stores.
Proof.
  refine (proj1 (one_date_bound_restricts_nothing
    (mkFilters None None (Some (Calendar.days_from_civil 2024 1 2)) None)
    two_stores _)).
  now right.
Defined.

End FilterClaims.

Section AggregateClaims.

Import Frame FilterComponent MetricsCalculator.
Local Open Scope Q_scope.

(** C9.  On the empty table the total of a column is 0, the period series
    is empty, and filtering gives the empty table. *)
Theorem empty_table_identities (column : Column) (period : Period)
  (f : Filters) :
  calculate_total [] column = 0
  /\ aggregate_by_period [] column period = []
  /\ apply_filters f [] = [].
Proof.
  split; [reflexivity | split; [reflexivity |]].
  unfold apply_filters, filter_datas, filter_tipos, filter_lojas.
  repeat match goal with
         | |- context [if ?b then _ else _] => destruct b
         end;
    simpl; destruct (data_inicio f), (data_fim f); reflexivity.
Qed.

Lemma s_col_agg {K : Type} `{Key K} (c : Column) (key : Row -> K)
  (df : DataFrame) :
  map (s_col c) (agg_sums key df)
  = map (fun g => sum_col (col c) (snd g)) (groupby key df).
Proof.
  unfold agg_sums. rewrite map_map. apply map_ext. intros g.
  now destruct c.
Qed.

(** C5.  Summing the per-group sums of a metric over all the
    (store, customer type) groups of [calculate_by_store_and_channel] gives
    the total of that metric over the table. *)
Theorem grouping_preserves_total (df : DataFrame) (column : Column) :
  sumQ (map (fun m => s_col column (cm_sums m))
          (calculate_by_store_and_channel df))
  == calculate_total df column.
Proof.
  unfold calculate_by_store_and_channel, calculate_total.
  rewrite map_map. simpl.
  rewrite <- (map_map (fun m => m) (s_col column)), map_id.
  rewrite s_col_agg. apply groupby_sums.
Qed.

End AggregateClaims.

(** ** The outer merge of the per-store sums *)

Section MergeFacts.

Import Frame MetricsCalculator.
Local Open Scope Q_scope.

Lemma agg_sums_keys {K : Type} `{Key K} (key : Row -> K) (df : DataFrame) :
  map s_key (agg_sums key df) = group_keys (map key df).
Proof.
  unfold agg_sums. rewrite map_map. simpl. apply groupby_keys.
Qed.

(** A row of [agg_sums] holds the sums over the rows of its group. *)
Lemma agg_sums_cells {K : Type} `{Key K} (key : Row -> K) (df : DataFrame)
  (s : Sums K) (c : Column) :
  In s (agg_sums key df) ->
  s_col c s = sum_col (col c) (group_rows key (s_key s) df).
Proof.
  unfold agg_sums, groupby. rewrite map_map. intros Hs.
  apply in_map_iff in Hs. destruct Hs as (k & <- & _).
  now destruct c.
Qed.

Lemma filter_key_nil (k : string) (l : list (Sums string)) :
  filter (fun s => String.eqb (s_key s) k) l = [] <-> ~ In k (map s_key l).
Proof.
  induction l as [| s l IH]; simpl.
  - tauto.
  - destruct (String.eqb_spec (s_key s) k) as [E | N].
    + split; [discriminate | intros H; exfalso; apply H; now left].
    + rewrite IH. tauto.
Qed.

(** With distinct keys, at most one row has a given key. *)
Lemma filter_key_unique (k : string) (l : list (Sums string)) :
  NoDup (map s_key l) ->
  (List.length (filter (fun s => String.eqb (s_key s) k) l) <= 1)%nat.
Proof.
  induction l as [| s l IH]; simpl; intros Hnd; [lia |].
  inversion Hnd as [| ? ? Hs Hl]; subst.
  destruct (String.eqb_spec (s_key s) k) as [E | N].
  - subst k. apply filter_key_nil in Hs. rewrite Hs. simpl. lia.
  - now apply IH.
Qed.

Lemma merge_outer_sides (left right : list (Sums string))
  (row : string * option (Sums string) * option (Sums string)) :
  In row (merge_outer left right) ->
  side_ok (fst (fst row)) left (snd (fst row))
  /\ side_ok (fst (fst row)) right (snd row).
Proof.
  unfold merge_outer. rewrite in_flat_map. intros (k & _ & Hrow).
  assert (HL : forall s,
             In s (filter (fun s => String.eqb (s_key s) k) left) ->
             In s left /\ s_key s = k).
  { intros s Hs. apply filter_In in Hs. destruct Hs as [H1 H2].
    now apply String.eqb_eq in H2. }
  assert (HR : forall s,
             In s (filter (fun s => String.eqb (s_key s) k) right) ->
             In s right /\ s_key s = k).
  { intros s Hs. apply filter_In in Hs. destruct Hs as [H1 H2].
    now apply String.eqb_eq in H2. }
  destruct (filter (fun s => String.eqb (s_key s) k) left)
    as [| l ls] eqn:EL.
  - apply in_map_iff in Hrow. destruct Hrow as (r & <- & Hr). simpl.
    split; [now apply filter_key_nil | now apply HR].
  - destruct (filter (fun s => String.eqb (s_key s) k) right)
      as [| r rs] eqn:ER.
    + apply in_map_iff in Hrow. destruct Hrow as (x & <- & Hx). simpl.
      split; [now apply HL | now apply filter_key_nil].
    + apply in_map_iff in Hrow. destruct Hrow as ([x y] & <- & Hxy). simpl.
      apply in_prod_iff in Hxy. destruct Hxy as [Hx Hy].
      split; [now apply HL | now apply HR].
Qed.

(** With distinct keys on both sides, the merged table has one row per key
    of the union. *)
Lemma merge_outer_keys (left right : list (Sums string)) :
  NoDup (map s_key left) -> NoDup (map s_key right) ->
  map (fun row => fst (fst row)) (merge_outer left right)
  = group_keys (map s_key left ++ map s_key right).
Proof.
  intros HL HR. unfold merge_outer.
  assert (Hin : forall k,
             In k (group_keys (map s_key left ++ map s_key right)) ->
             In k (map s_key left) \/ In k (map s_key right)).
  { intros k Hk. apply (proj1 (group_keys_In _ _)) in Hk.
    now apply in_app_or. }
  induction (group_keys (map s_key left ++ map s_key right))
    as [| k ks IH]; simpl; [reflexivity |].
  rewrite map_app, IH by (intros k' Hk'; apply Hin; right; exact Hk').
  pose proof (filter_key_unique k left HL) as UL.
  pose proof (filter_key_unique k right HR) as UR.
  pose proof (filter_key_nil k left) as NL.
  pose proof (filter_key_nil k right) as NR.
  destruct (filter (fun s => String.eqb (s_key s) k) left)
    as [| l [| l' ls]];
    destruct (filter (fun s => String.eqb (s_key s) k) right)
    as [| r [| r' rs]];
    simpl in *; try lia; try reflexivity.
  exfalso. destruct (Hin k (or_introl eq_refl)) as [H | H].
  - now apply (proj1 NL).
  - now apply (proj1 NR).
Qed.

Lemma year_rows_In (y : Z) (df : DataFrame) (r : Row) :
  In r (year_rows y df) <-> In r df /\ ano r = y.
Proof.
  unfold year_rows. rewrite filter_In, Z.eqb_eq. reflexivity.
Qed.

Lemma cell_side (c : Column) (y : Z) (df : DataFrame) (k : string)
  (o : option (Sums string)) :
  side_ok k (agg_sums loja (year_rows y df)) o ->
  cell c o = sum_col (col c) (group_rows loja k (year_rows y df)).
Proof.
  destruct o as [s |]; simpl.
  - intros [Hs <-]. now apply agg_sums_cells.
  - rewrite agg_sums_keys, group_keys_In. intros Hk.
    rewrite group_rows_nil by exact Hk. reflexivity.
Qed.

(** The cells of a row of the comparison are the sums of the metric over
    the rows of the store in each of the two years. *)
Lemma compare_years_cells (df : DataFrame) (cy py : Z) (row : Comparison) :
  In row (compare_years df cy py) ->
  forall c,
    atual row c
    = sum_col (col c) (group_rows loja (c_loja row) (year_rows cy df))
    /\ anterior row c
       = sum_col (col c) (group_rows loja (c_loja row) (year_rows py df))
    /\ var_pct_of row c = var_pct (atual row c) (anterior row c).
Proof.
  unfold compare_years. intros Hrow c.
  apply in_map_iff in Hrow. destruct Hrow as (m & <- & Hm). simpl.
  apply merge_outer_sides in Hm. destruct Hm as [HL HR].
  split; [now apply cell_side | split; [now apply cell_side | reflexivity]].
Qed.

Lemma compare_years_stores (df : DataFrame) (cy py : Z) :
  NoDup (map c_loja (compare_years df cy py))
  /\ (forall s, In s (map c_loja (compare_years df cy py)) <->
                 In s (map loja (year_rows cy df))
                 \/ In s (map loja (year_rows py df))).
Proof.
  unfold compare_years. rewrite map_map. simpl.
  rewrite merge_outer_keys
    by (rewrite agg_sums_keys; apply group_keys_NoDup).
  split; [apply group_keys_NoDup |].
  intros s. rewrite group_keys_In, in_app_iff, !agg_sums_keys.
  now rewrite !group_keys_In.
Qed.

(** The division by a zero previous value ends as 0. *)
Lemma var_pct_zero_previous (a p : Q) : p == 0 -> var_pct a p = Finite 0.
Proof.
  intros Hp. unfold var_pct, Float.div.
  apply Qeq_bool_iff in Hp. rewrite Hp.
  destruct (a - p ?= 0); reflexivity.
Qed.

End MergeFacts.

Section ComparisonClaims.

Import Frame MetricsCalculator.
Local Open Scope Q_scope.

Lemma run_yoy_by_store (df : DataFrame) (cy py : option Z)
  (c : Clock.readings) :
  Clock.run (calculate_yoy_by_store df cy py) c
  = compare_years df (current_of cy c) (previous_of cy py c).
Proof. destruct cy, py; reflexivity. Qed.

Lemma run_yoy (df : DataFrame) (column : Column) (cy py : option Z)
  (c : Clock.readings) :
  let previous :=
    sum_col (col column)
      (filter (ytd_mask (previous_of cy py c) (c (previous_reading cy))) df)
  in
  let r := Clock.run (calculate_yoy df column cy py) c in
  previous_value r = previous
  /\ percentage r
     = if negb (Qeq_bool previous 0)
       then Float.mul (Float.div (difference r) previous) 100
       else Finite 0.
Proof. destruct cy, py; split; reflexivity. Qed.

(** C3.  A previous value of 0 gives a percentage of exactly 0: in
    [calculate_yoy] when the previous-year sum is 0, and in
    [calculate_yoy_by_store] for every store and metric whose previous-year
    cell is 0, whatever the current value is.  The result is the finite
    number 0, not an infinity and not [NaN]. *)
Theorem zero_previous_gives_zero_percentage (df : DataFrame)
  (cy py : option Z) (c : Clock.readings) :
  (forall column,
      previous_value (Clock.run (calculate_yoy df column cy py) c) == 0 ->
      percentage (Clock.run (calculate_yoy df column cy py) c) = Finite 0)
  /\ (forall row metric,
        In row (Clock.run (calculate_yoy_by_store df cy py) c) ->
        anterior row metric == 0 ->
        var_pct_of row metric = Finite 0).
Proof.
  split.
  - intros column H.
    destruct (run_yoy df column cy py c) as [Hp Hq]. cbv zeta in Hp, Hq.
    rewrite Hq. rewrite Hp in H. apply Qeq_bool_iff in H. now rewrite H.
  - intros row metric Hrow H. rewrite run_yoy_by_store in Hrow.
    destruct (compare_years_cells _ _ _ _ Hrow metric) as (_ & _ & ->).
    now apply var_pct_zero_previous.
Qed.

(** Store "A" sold 50 units in 2024 and nothing in 2023: its row is the
    first of the comparison. *)
Lemma zero_previous_gives_zero_percentage_witness :
  let result :=
    Clock.run (calculate_yoy_by_store stores_abc (Some 2024%Z) (Some 2023%Z))
      (noon 2024 3 1) in
  let row := nth 0 result no_comparison in
  percentage
    (Clock.run (calculate_yoy zero_quantity Receita
                  (Some 2024%Z) (Some 2023%Z))
       (noon 2024 3 1)) = Finite 0
  /\ In row result
  /\ c_loja row = "A"%string
  /\ quantidade_atual row == 50
  /\ var_quantidade_pct row = Finite 0.
Proof.
  intros result row.
  pose proof (zero_previous_gives_zero_percentage zero_quantity
                (Some 2024%Z) (Some 2023%Z) (noon 2024 3 1)) as [H1 _].
  pose proof (zero_previous_gives_zero_percentage stores_abc
                (Some 2024%Z) (Some 2023%Z) (noon 2024 3 1)) as [_ H2].
  assert (Hin : In row result)
    by (apply nth_In; vm_compute; lia).
  split; [apply H1; vm_compute; reflexivity |].
  split; [exact Hin |].
  split; [vm_compute; reflexivity |].
  split; [vm_compute; reflexivity |].
  apply H2; [exact Hin | vm_compute; reflexivity].
Defined.

(** C4.  The comparison has exactly one row per store of the union of the
    stores with rows in the current year and the stores with rows in the
    previous year; a store without rows in one of the two years has all
    three sums of that year equal to 0. *)
Theorem yoy_by_store_is_outer_join (df : DataFrame) (cy py : option Z)
  (c : Clock.readings) :
  let result := Clock.run (calculate_yoy_by_store df cy py) c in
  let current_year := current_of cy c in
  let previous_year := previous_of cy py c in
  NoDup (map c_loja result)
  /\ (forall s,
        In s (map c_loja result) <->
        exists r, In r df /\ loja r = s
                  /\ (ano r = current_year \/ ano r = previous_year))
  /\ (forall row,
        In row result ->
        (forall r, In r df -> loja r = c_loja row ->
                   ano r <> previous_year) ->
        forall metric, anterior row metric = 0)
  /\ (forall row,
        In row result ->
        (forall r, In r df -> loja r = c_loja row ->
                   ano r <> current_year) ->
        forall metric, atual row metric = 0).
Proof.
  cbv zeta. rewrite run_yoy_by_store.
  set (y1 := current_of cy c). set (y0 := previous_of cy py c).
  destruct (compare_years_stores df y1 y0) as [Hnd Hin].
  assert (Hnil : forall y s,
             (forall r, In r df -> loja r = s -> ano r <> y) ->
             group_rows loja s (year_rows y df) = []).
  { intros y s H. apply group_rows_nil. intros Hs.
    apply in_map_iff in Hs. destruct Hs as (r & Hl & Hr).
    apply year_rows_In in Hr. destruct Hr as [Hr Hy].
    now apply (H r Hr Hl). }
  split; [exact Hnd | split; [| split]].
  - intros s. rewrite Hin, !in_map_iff. split.
    + intros [(r & Hl & Hr) | (r & Hl & Hr)];
        apply year_rows_In in Hr; destruct Hr as [Hr Hy];
        exists r; tauto.
    + intros (r & Hr & Hl & [Hy | Hy]); [left | right];
        exists r; (split; [exact Hl | now apply year_rows_In]).
  - intros row Hrow Habs metric.
    destruct (compare_years_cells _ _ _ _ Hrow metric) as (_ & -> & _).
    now rewrite Hnil.
  - intros row Hrow Habs metric.
    destruct (compare_years_cells _ _ _ _ Hrow metric) as (-> & _ & _).
    now rewrite Hnil.
Qed.

(** Stores A and B have rows in 2024, stores B and C in 2023: the
    comparison has the rows A, B, C; A has no previous quantity and C no
    current quantity. *)
Lemma yoy_by_store_is_outer_join_witness :
  let result :=
    Clock.run (calculate_yoy_by_store stores_abc (Some 2024%Z) (Some 2023%Z))
      (noon 2024 3 1) in
  map c_loja result = ["A"; "B"; "C"]%string
  /\ quantidade_anterior (nth 0 result no_comparison) = 0
  /\ quantidade_atual (nth 2 result no_comparison) = 0.
Proof.
  intros result.
  pose proof (yoy_by_store_is_outer_join stores_abc
                (Some 2024%Z) (Some 2023%Z) (noon 2024 3 1)) as H.
  cbv zeta in H. destruct H as (_ & _ & Hprev & Hcur).
  split; [vm_compute; reflexivity |]. split.
  - apply Hprev; [apply nth_In; vm_compute; lia |].
    intros r Hr Hl. vm_compute in Hr.
    destruct Hr as [<- | [<- | [<- | [<- | []]]]];
      vm_compute in Hl; try discriminate Hl; vm_compute; discriminate.
  - apply Hcur; [apply nth_In; vm_compute; lia |].
    intros r Hr Hl. vm_compute in Hr.
    destruct Hr as [<- | [<- | [<- | [<- | []]]]];
      vm_compute in Hl; try discriminate Hl; vm_compute; discriminate.
Defined.

End ComparisonClaims.

Section ChannelClaims.

Import Frame MetricsCalculator.
Local Open Scope Q_scope.

Lemma div_by_zero (a b : Q) : b == 0 -> Float.div a b = zero_division a.
Proof.
  intros Hb. unfold Float.div. apply Qeq_bool_iff in Hb. now rewrite Hb.
Qed.

Lemma zero_division_not_finite (a : Q) :
  Float.is_finite (Float.round2 (zero_division a)) = false
  /\ Float.round2 (zero_division a) = zero_division a.
Proof. unfold zero_division. destruct (a ?= 0); split; reflexivity. Qed.

(** C2, as stated, fails.  A group with revenue 10, profit 2 and quantity 0
    gets [inf] in both average columns, which is not the missing marker. *)
Lemma zero_quantity_average_is_not_null :
  ~ (forall m,
       In m (calculate_by_store_and_channel zero_quantity) ->
       s_quantidade (cm_sums m) == 0 ->
       Float.isna (ticket_medio m) = true
       /\ Float.isna (lucro_medio m) = true).
Proof.
  intros H.
  destruct (H (mkChannelMetrics (mkSums ("A"%string, Varejo) 0 10 2)
                 PosInf PosInf)) as [H1 _].
  - vm_compute. left. reflexivity.
  - reflexivity.
  - discriminate H1.
Qed.

(** C2, amended.  For a group whose quantities sum to 0, the two averages
    are what the division by zero gives: [NaN] when the sum in the numerator
    is 0 as well, and the infinity of the sign of the numerator otherwise.
    Neither is a finite number, in particular neither is 0. *)
Theorem zero_quantity_average_is_not_finite (df : DataFrame)
  (m : ChannelMetrics) :
  In m (calculate_by_store_and_channel df) ->
  s_quantidade (cm_sums m) == 0 ->
  ticket_medio m = zero_division (s_receita (cm_sums m))
  /\ lucro_medio m = zero_division (s_lucro (cm_sums m))
  /\ Float.is_finite (ticket_medio m) = false
  /\ Float.is_finite (lucro_medio m) = false.
Proof.
  unfold calculate_by_store_and_channel. intros Hm Hq.
  apply in_map_iff in Hm. destruct Hm as (s & <- & _). simpl in *.
  rewrite !(div_by_zero _ _ Hq).
  destruct (zero_division_not_finite (s_receita s)) as [F1 E1].
  destruct (zero_division_not_finite (s_lucro s)) as [F2 E2].
  repeat split; assumption.
Qed.

Lemma zero_quantity_average_is_not_finite_witness :
  let m := mkChannelMetrics (mkSums ("A"%string, Varejo) 0 10 2)
             PosInf PosInf in
  ticket_medio m = PosInf /\ Float.is_finite (lucro_medio m) = false.
Proof.
  intros m.
  assert (Hin : In m (calculate_by_store_and_channel zero_quantity))
    by (vm_compute; left; reflexivity).
  assert (Hq : s_quantidade (cm_sums m) == 0) by reflexivity.
  destruct (zero_quantity_average_is_not_finite zero_quantity m Hin Hq)
    as (H1 & _ & _ & H4).
  split; [exact H1 | exact H4].
Defined.

End ChannelClaims.

(** ** The period series *)

Section PeriodFacts.

Import Frame MetricsCalculator.

Lemma zrange_In (lo hi k : Z) : In k (zrange lo hi) <-> lo <= k <= hi.
Proof.
  unfold zrange. rewrite in_map_iff. split.
  - intros (n & <- & Hn). apply in_seq in Hn. lia.
  - intros H. exists (Z.to_nat (k - lo)). split; [lia |].
    apply in_seq. lia.
Qed.

Lemma zrange_sorted (f : Z -> Z) (lo hi : Z) :
  (forall a b, a < b -> f a < f b) ->
  StronglySorted Z.lt (map f (zrange lo hi)).
Proof.
  intros Hf. unfold zrange. rewrite map_map.
  generalize (Z.to_nat (hi - lo + 1)) as n. generalize 0%nat as a.
  intros a n. revert a.
  induction n as [| n IH]; intros a; simpl; constructor.
  - apply IH.
  - apply Forall_forall. intros x Hx.
    apply in_map_iff in Hx. destruct Hx as (k & <- & Hk).
    apply in_seq in Hk. apply Hf. lia.
Qed.

Lemma zmin_spec (x : Z) (l : list Z) :
  In (zmin x l) (x :: l) /\ (forall y, In y (x :: l) -> zmin x l <= y).
Proof.
  induction l as [| h t [Hin Hle]]; simpl.
  - split; [now left | intros y [<- | []]; lia].
  - fold (zmin x t). split.
    + destruct (Z.min_spec h (zmin x t)) as [[_ ->] | [_ ->]]; simpl in *;
        tauto.
    + intros y [<- | [<- | Hy]].
      * pose proof (Hle x (or_introl eq_refl)). lia.
      * lia.
      * pose proof (Hle y (or_intror Hy)). lia.
Qed.

Lemma zmax_spec (x : Z) (l : list Z) :
  In (zmax x l) (x :: l) /\ (forall y, In y (x :: l) -> y <= zmax x l).
Proof.
  induction l as [| h t [Hin Hle]]; simpl.
  - split; [now left | intros y [<- | []]; lia].
  - fold (zmax x t). split.
    + destruct (Z.max_spec h (zmax x t)) as [[_ ->] | [_ ->]]; simpl in *;
        tauto.
    + intros y [<- | [<- | Hy]].
      * pose proof (Hle x (or_introl eq_refl)). lia.
      * lia.
      * pose proof (Hle y (or_intror Hy)). lia.
Qed.

(** Later buckets have later labels. *)
Lemma bin_label_mono (p : Period) (a b : Z) :
  a < b -> bin_label p a < bin_label p b.
Proof.
  intros H. destruct p; unfold bin_label; try lia.
  assert (Hm : Calendar.month_start (a + 1) < Calendar.month_start (b + 1))
    by (apply month_start_mono; lia).
  lia.
Qed.

End PeriodFacts.

Section PeriodClaims.

Import Frame MetricsCalculator.
Local Open Scope Q_scope.

(** C7, as stated, fails.  With rows on 2024-01-01, 2024-01-03 and
    2024-01-24 the weekly series has an entry, with sum 0, for the week that
    ends on 2024-01-14: no row falls in that week, and the entry carries
    neither the start nor the label of a week that has a row. *)
Lemma empty_week_is_in_the_series :
  let entry := (Calendar.days_from_civil 2024 1 14, 0) in
  In entry (aggregate_by_period sparse_weeks Receita W)
  /\ forall r, In r sparse_weeks ->
       fst entry <> bin_start W (bin_index W (data r))
       /\ fst entry <> bin_label W (bin_index W (data r)).
Proof.
  split.
  - vm_compute. right. left. reflexivity.
  - intros r Hr. vm_compute in Hr.
    destruct Hr as [<- | [<- | [<- | []]]]; vm_compute; split; discriminate.
Qed.

(** C7, amended.  The series has one entry for every bucket from the
    earliest bucket with a row to the latest bucket with a row, the buckets
    in between that have no row included; an entry carries the label of its
    bucket (the day, the Sunday that closes the week, the last day of the
    month) and the sum of the column over the rows of the bucket, which is 0
    for a bucket without rows; the labels are strictly ascending. *)
Theorem period_series_is_dense_and_ascending (df : DataFrame)
  (column : Column) (p : Period) :
  let series := aggregate_by_period df column p in
  StronglySorted Z.lt (map fst series)
  /\ (forall entry,
        In entry series <->
        exists i r1 r2,
          In r1 df /\ In r2 df
          /\ (bin_index p (data r1) <= i <= bin_index p (data r2))%Z
          /\ entry = bucket_entry df column p i)
  /\ (forall i,
        (forall r, In r df -> bin_index p (data r) <> i) ->
        snd (bucket_entry df column p i) = 0).
Proof.
  cbv zeta. unfold aggregate_by_period.
  split; [| split].
  - destruct (map (fun r => bin_index p (data r)) df) as [| i rest].
    + constructor.
    + rewrite map_map. simpl.
      apply zrange_sorted. intros a b. apply bin_label_mono.
  - intros entry.
    destruct (map (fun r => bin_index p (data r)) df) as [| i rest] eqn:E.
    + split; [intros [] |].
      intros (k & r1 & _ & H1 & _). destruct df; [destruct H1 | discriminate].
    + destruct (zmin_spec i rest) as [Hmin_in Hmin_le].
      destruct (zmax_spec i rest) as [Hmax_in Hmax_le].
      rewrite <- E in Hmin_in, Hmax_in, Hmin_le, Hmax_le.
      rewrite in_map_iff. split.
      * intros (k & <- & Hk). apply zrange_In in Hk.
        apply in_map_iff in Hmin_in. destruct Hmin_in as (r1 & E1 & H1).
        apply in_map_iff in Hmax_in. destruct Hmax_in as (r2 & E2 & H2).
        exists k, r1, r2. rewrite E1, E2. repeat split; tauto.
      * intros (k & r1 & r2 & H1 & H2 & Hk & ->).
        exists k. split; [reflexivity |]. apply zrange_In.
        pose proof (Hmin_le _ (in_map (fun r => bin_index p (data r)) _ _ H1)).
        pose proof (Hmax_le _ (in_map (fun r => bin_index p (data r)) _ _ H2)).
        lia.
  - intros i Hi. unfold bucket_entry, bin_rows. simpl.
    replace (filter (fun r => (bin_index p (data r) =? i)%Z) df) with (@nil Row);
      [reflexivity |].
    symmetry. induction df as [| r df IH]; simpl; [reflexivity |].
    destruct (Z.eqb_spec (bin_index p (data r)) i) as [Eq | _].
    + exfalso. apply (Hi r); [now left | exact Eq].
    + apply IH. intros r' Hr'. apply Hi. now right.
Qed.

(** The week that ends on 2024-01-14 has no row: its entry has sum 0. *)
Lemma period_series_is_dense_and_ascending_witness :
  snd (bucket_entry sparse_weeks Receita W
         (bin_index W (Calendar.days_from_civil 2024 1 14))) = 0.
Proof.
  apply (proj2 (proj2 (period_series_is_dense_and_ascending
                         sparse_weeks Receita W))).
  intros r Hr. vm_compute in Hr.
  destruct Hr as [<- | [<- | [<- | []]]]; vm_compute; discriminate.
Defined.

End PeriodClaims.

Section YearOverYearClaims.

Import Frame MetricsCalculator.
Local Open Scope Q_scope.

(** C1.  The previous year is to be summed up to the same day of the year
    as the current one.  [calculate_yoy] does not do so: read at noon of
    2024-03-01, its previous value for a table with 2023 rows on 24 January
    (revenue 30) and on 31 December (revenue 40) is 70, the whole year,
    while the sum up to 1 March 2023 is 30. *)
Lemma previous_year_is_not_cut_at_the_same_day :
  let clock := noon 2024 3 1 in
  let r := Clock.run (calculate_yoy stores_abc Receita
                        (Some 2024%Z) (Some 2023%Z)) clock in
  previous_value r == 70
  /\ ytd_up_to_same_day stores_abc Receita 2023 (clock 1%nat) == 30
  /\ ~ previous_value r
       == ytd_up_to_same_day stores_abc Receita 2023 (clock 1%nat).
Proof.
  split; [vm_compute; reflexivity |].
  split; [vm_compute; reflexivity |].
  vm_compute. discriminate.
Qed.

(** For a year that is over when the clock is read, the date test of the
    mask of [calculate_ytd] holds for every row of that year. *)
Lemma ytd_mask_past_year (y t : Z) (r : Row) :
  ano r = Calendar.year_of (data r) ->
  (y < Clock.year t)%Z ->
  ytd_mask y t r = (ano r =? y)%Z.
Proof.
  intros Hr Hy. unfold ytd_mask.
  destruct (Z.eqb_spec (ano r) y) as [E | _]; [| reflexivity]. simpl.
  apply Z.leb_le, midnight_le_instant.
  destruct (Z_le_gt_dec (data r) (Calendar.date_of_instant t))
    as [L | G]; [exact L |].
  assert (Hm : (Calendar.year_of (Calendar.date_of_instant t)
                <= Calendar.year_of (data r))%Z)
    by (apply year_of_mono; lia).
  unfold Clock.year in Hy. lia.
Qed.

Lemma clock_year_mono (c : Clock.readings) (i j : nat) :
  Clock.monotone c -> (i <= j)%nat -> (Clock.year (c i) <= Clock.year (c j))%Z.
Proof.
  intros Hc Hij. unfold Clock.year.
  apply year_of_mono, date_of_instant_mono, Hc, Hij.
Qed.

(** What [calculate_yoy] computes instead: its previous value is
    [calculate_ytd] for the previous year at the reading of the clock made
    for it, and the date test of that call compares with the present
    instant, so once the previous year is over it holds for every row of
    that year and the sum is the one over the whole year. *)
Lemma yoy_previous_is_ytd_at_the_clock (df : DataFrame) (column : Column)
  (cy py : option Z) (c : Clock.readings) :
  Clock.monotone c ->
  year_consistent df ->
  let r := Clock.run (calculate_yoy df column cy py) c in
  let previous_year := previous_of cy py c in
  previous_value r
  = fst (calculate_ytd df column (Some previous_year) c (previous_reading cy))
  /\ ((previous_year < Clock.year (c 0%nat))%Z ->
      previous_value r = calculate_total (year_rows previous_year df) column).
Proof.
  intros Hc Hdf. cbv zeta.
  destruct (run_yoy df column cy py c) as [Hp _]. cbv zeta in Hp.
  split; [exact Hp |].
  intros Hy. rewrite Hp. unfold calculate_total, year_rows. f_equal.
  apply filter_ext_in. intros r Hr.
  apply ytd_mask_past_year.
  - unfold year_consistent in Hdf. rewrite Forall_forall in Hdf.
    now apply Hdf.
  - pose proof (clock_year_mono c 0 (previous_reading cy) Hc
                  (Nat.le_0_l _)).
    lia.
Qed.

Lemma yoy_previous_is_ytd_at_the_clock_witness :
  previous_value
    (Clock.run (calculate_yoy stores_abc Receita (Some 2024%Z) (Some 2023%Z))
       (noon 2024 3 1))
  = calculate_total (year_rows 2023 stores_abc) Receita.
Proof.
  refine (proj2 (yoy_previous_is_ytd_at_the_clock stores_abc Receita
                   (Some 2024%Z) (Some 2023%Z) (noon 2024 3 1) _ _) _).
  - intros i j _. unfold noon. lia.
  - repeat constructor.
  - vm_compute. reflexivity.
Defined.

End YearOverYearClaims.

(** ** Rounding *)

Section RoundingFacts.

Import Frame.
Local Open Scope Q_scope.

(** Rounding to the nearest integer moves a value by at most one half. *)
Lemma rint_bound (q : Q) : Qabs (inject_Z (Float.rint q) - q) <= 1 # 2.
Proof.
  unfold Float.rint. cbv zeta.
  pose proof (Qfloor_le q) as Hlo.
  pose proof (Qlt_floor q) as Hhi.
  rewrite inject_Z_plus in Hhi. change (inject_Z 1) with 1 in Hhi.
  apply Qabs_Qle_condition.
  destruct (Qcompare_spec (q - inject_Z (Qfloor q)) (1 # 2)) as [E | L | G].
  - destruct (Z.even (Qfloor q)).
    + lra.
    + rewrite inject_Z_plus. change (inject_Z 1) with 1. lra.
  - lra.
  - rewrite inject_Z_plus. change (inject_Z 1) with 1. lra.
Qed.

(** Rounding to two decimals moves a value by at most 0.005. *)
Lemma round2_bound (q : Q) : Qabs (Float.round2_Q q - q) <= 1 # 200.
Proof.
  unfold Float.round2_Q.
  pose proof (rint_bound (q * 100)) as H.
  apply Qabs_Qle_condition in H. apply Qabs_Qle_condition.
  generalize dependent (inject_Z (Float.rint (q * 100))).
  intros z H.
  assert (E : z / 100 == z * (1 # 100)) by (field).
  rewrite E. clear E. lra.
Qed.

Lemma round2_sum_bound {A : Type} (f : A -> Q) (l : list A) :
  Qabs (sumQ (map (fun x => Float.round2_Q (f x)) l) - sumQ (map f l))
  <= inject_Z (Z.of_nat (List.length l)) * (1 # 200).
Proof.
  induction l as [| x l IH].
  - apply Qabs_Qle_condition.
    cbn [map sumQ fold_right List.length Z.of_nat].
    change (inject_Z 0) with 0. lra.
  - cbn [map sumQ fold_right List.length].
    apply Qabs_Qle_condition in IH. apply Qabs_Qle_condition.
    pose proof (round2_bound (f x)) as Hx.
    apply Qabs_Qle_condition in Hx.
    rewrite Nat2Z.inj_succ, <- Z.add_1_r, inject_Z_plus.
    change (inject_Z 1) with 1.
    fold (sumQ (map (fun x => Float.round2_Q (f x)) l)).
    fold (sumQ (map f l)).
    lra.
Qed.

(** A column of finite values sums to the finite sum. *)
Lemma float_sum_finite (qs : list Q) :
  Float.sum (map Finite qs) = Finite (sumQ qs).
Proof.
  unfold Float.sum. induction qs as [| q qs IH]; simpl.
  - reflexivity.
  - simpl in IH. rewrite IH. reflexivity.
Qed.

End RoundingFacts.

(** ** The distribution of the sales of a store *)

Section DistributionFacts.

Import Frame MetricsCalculator.
Local Open Scope Q_scope.

(** Rounding does not leave an interval with integer ends. *)
Lemma rint_range (a b : Z) (y : Q) :
  inject_Z a <= y <= inject_Z b -> (a <= Float.rint y <= b)%Z.
Proof.
  intros [Ha Hb].
  assert (Hfa : (a <= Qfloor y)%Z)
    by (rewrite <- (Qfloor_Z a); now apply Qfloor_resp_le).
  assert (Hfb : (Qfloor y <= b)%Z)
    by (rewrite <- (Qfloor_Z b); now apply Qfloor_resp_le).
  assert (Hup : ~ y - inject_Z (Qfloor y) <= 0 -> (Qfloor y + 1 <= b)%Z).
  { intros Hpos. destruct (Z.eq_dec (Qfloor y) b) as [E | N]; [| lia].
    exfalso. apply Hpos. rewrite E. lra. }
  unfold Float.rint. cbv zeta.
  destruct (Qcompare_spec (y - inject_Z (Qfloor y)) (1 # 2)) as [E | L | G].
  - destruct (Z.even (Qfloor y)); [lia |].
    split; [lia |]. apply Hup. lra.
  - lia.
  - split; [lia |]. apply Hup. lra.
Qed.

Lemma round2_range (x : Q) : 0 <= x <= 100 -> 0 <= Float.round2_Q x <= 100.
Proof.
  intros [H0 H1]. unfold Float.round2_Q.
  destruct (rint_range 0 10000 (x * 100)) as [Ha Hb].
  - change (inject_Z 0) with 0. change (inject_Z 10000) with 10000. lra.
  - rewrite Zle_Qle in Ha, Hb.
    change (inject_Z 0) with 0 in Ha.
    change (inject_Z 10000) with 10000 in Hb.
    generalize dependent (inject_Z (Float.rint (x * 100))). intros z Ha Hb.
    assert (E : z / 100 == z * (1 # 100)) by field.
    rewrite E. lra.
Qed.

Lemma sum_col_nonneg (f : Row -> Q) (l : DataFrame) :
  (forall r, In r l -> 0 <= f r) -> 0 <= sum_col f l.
Proof.
  unfold sum_col. induction l as [| r l IH]; simpl; intros H.
  - lra.
  - pose proof (H r (or_introl eq_refl)).
    assert (0 <= sumQ (map f l)) by (apply IH; intros; apply H; now right).
    lra.
Qed.

Lemma term_le_sumQ {A : Type} (g : A -> Q) (l : list A) (k : A) :
  (forall x, In x l -> 0 <= g x) -> In k l ->
  g k <= sumQ (map g l) /\ 0 <= sumQ (map g l).
Proof.
  induction l as [| x l IH]; simpl; intros H Hk; [destruct Hk |].
  pose proof (H x (or_introl eq_refl)) as Hx.
  assert (Hl : 0 <= sumQ (map g l)).
  { clear IH Hk. induction l as [| y l IHl]; simpl; [lra |].
    pose proof (H y (or_intror (or_introl eq_refl))).
    assert (0 <= sumQ (map g l)).
    { apply IHl. intros z [Hz | Hz]; apply H; [now left | right; now right]. }
    lra. }
  destruct Hk as [<- | Hk].
  - lra.
  - destruct IH as [IH _]; [intros; apply H; now right | exact Hk |]. lra.
Qed.

Lemma filter_of_map {A B : Type} (p : B -> bool) (g : A -> B) (l : list A) :
  filter p (map g l) = map g (filter (fun x => p (g x)) l).
Proof.
  induction l as [| x l IH]; simpl; [reflexivity |].
  rewrite IH. now destruct (p (g x)).
Qed.

Lemma filter_absorb {A : Type} (p q : A -> bool) (l : list A) :
  (forall x, p x = true -> q x = true) ->
  filter p (filter q l) = filter p l.
Proof.
  intros H. induction l as [| x l IH]; simpl; [reflexivity |].
  destruct (q x) eqn:Eq; simpl; rewrite IH.
  - reflexivity.
  - destruct (p x) eqn:Ep; [| reflexivity].
    apply H in Ep. congruence.
Qed.

(** Keys of one store differ in the customer type; there are two types. *)
Lemma keys_of_store_le_2 (s : string) (ks : list (string * TipoCliente)) :
  NoDup ks -> (forall k, In k ks -> fst k = s) ->
  (List.length ks <= 2)%nat.
Proof.
  intros Hnd Hs.
  assert (Hsnd : NoDup (map snd ks)).
  { induction Hnd as [| k ks Hk Hnd IH]; simpl; constructor.
    - intros Hin. apply in_map_iff in Hin. destruct Hin as (k' & E & Hk').
      apply Hk. replace k with k'; [exact Hk' |].
      destruct k as [a b], k' as [a' b']. simpl in E. subst b'.
      f_equal. transitivity s.
      + apply (Hs (a', b)). now right.
      + symmetry. apply (Hs (a, b)). now left.
    - apply IH. intros k' Hk'. apply Hs. now right. }
  rewrite <- (length_map snd ks).
  apply (NoDup_incl_length (l' := [Varejo; Atacado]) Hsnd).
  intros t _. destruct t; simpl; auto.
Qed.

Lemma sales_of_store (s : string) (df : DataFrame) :
  filter (fun x => String.eqb (fst (fst x)) s) (sales_by_store_channel df)
  = map (fun k => (k, sum_col quantidade
                        (group_rows store_channel_key k df)))
        (keys_of_store s df).
Proof.
  unfold sales_by_store_channel, groupby, keys_of_store.
  rewrite map_map. simpl. fold store_channel_key.
  now rewrite filter_of_map.
Qed.

(** The total of a store in the grouped table is its total in the table. *)
Lemma total_by_store_is_store_quantity (s : string) (df : DataFrame) :
  total_by_store (sales_by_store_channel df) s == store_quantity s df.
Proof.
  unfold total_by_store, store_quantity.
  rewrite sales_of_store, map_map. simpl.
  set (df_s := filter (fun r => String.eqb (loja r) s) df).
  transitivity
    (sumQ (map (fun k => sum_col quantidade
                           (group_rows store_channel_key k df_s))
               (keys_of_store s df))).
  - apply sumQ_map_ext. intros k Hk.
    apply filter_In in Hk. destruct Hk as [_ Hk].
    apply String.eqb_eq in Hk.
    unfold group_rows, df_s. rewrite filter_absorb; [reflexivity |].
    intros r Hr. apply key_eqb_true in Hr. apply String.eqb_eq.
    rewrite <- Hk, <- Hr. reflexivity.
  - apply sum_over_groups.
    + apply NoDup_filter, group_keys_NoDup.
    + intros r Hr. apply filter_In in Hr. destruct Hr as [Hr Hs].
      apply filter_In. split; [| exact Hs].
      apply group_keys_In. now apply in_map.
Qed.

Lemma keys_of_store_length (s : string) (df : DataFrame) :
  (List.length (keys_of_store s df) <= 2)%nat.
Proof.
  apply (keys_of_store_le_2 s).
  - apply NoDup_filter, group_keys_NoDup.
  - intros k Hk. apply filter_In in Hk. destruct Hk as [_ Hk].
    now apply String.eqb_eq in Hk.
Qed.

(** The percentages of a store whose total is not 0: the rounded shares. *)
Lemma percentages_of_store (s : string) (df : DataFrame) :
  let t := sales_by_store_channel df in
  let total := total_by_store t s in
  ~ total == 0 ->
  map percentual (store_rows s (calculate_sales_distribution df))
  = map Finite
      (map (fun k => Float.round2_Q
                       (sum_col quantidade
                          (group_rows store_channel_key k df)
                        / total * 100))
           (keys_of_store s df)).
Proof.
  cbv zeta. intros Ht.
  unfold store_rows, calculate_sales_distribution.
  rewrite filter_of_map. simpl.
  rewrite sales_of_store, !map_map. simpl.
  apply map_ext_in. intros k Hk.
  apply filter_In in Hk. destruct Hk as [_ Hk].
  apply String.eqb_eq in Hk. rewrite Hk.
  unfold Float.div.
  destruct (Qeq_bool (total_by_store (sales_by_store_channel df) s) 0)
    eqn:E; [| reflexivity].
  apply Qeq_bool_iff in E. contradiction.
Qed.

(** A percentage of a store with a total other than 0, in a table without
    negative quantities. *)
Lemma percentual_in_range (df : DataFrame) (d : Distribution) :
  (forall r, In r df -> 0 <= quantidade r) ->
  In d (calculate_sales_distribution df) ->
  ~ store_quantity (sd_loja d) df == 0 ->
  exists p, percentual d = Finite p /\ 0 <= p <= 100.
Proof.
  intros Hpos Hd Hnz. unfold calculate_sales_distribution in Hd.
  apply in_map_iff in Hd. destruct Hd as (x & <- & Hx). simpl in *.
  set (s := fst (fst x)) in *.
  set (total := total_by_store (sales_by_store_channel df) s).
  assert (Ht : total == store_quantity s df)
    by apply total_by_store_is_store_quantity.
  assert (Htnz : ~ total == 0) by (rewrite Ht; exact Hnz).
  unfold Float.div.
  destruct (Qeq_bool total 0) eqn:E;
    [apply Qeq_bool_iff in E; contradiction |].
  simpl. eexists. split; [reflexivity |].
  apply round2_range.
  (* the group of [x] is one of the groups of the store *)
  assert (Hxs : In x (filter (fun y => String.eqb (fst (fst y)) s)
                        (sales_by_store_channel df)))
    by (apply filter_In; split; [exact Hx | apply String.eqb_refl]).
  rewrite sales_of_store in Hxs.
  apply in_map_iff in Hxs. destruct Hxs as (k & Ek & Hk).
  set (q := fun k => sum_col quantidade
                       (group_rows store_channel_key k df)).
  assert (Hsnd : snd x = q k) by (rewrite <- Ek; reflexivity).
  assert (Htot : total = sumQ (map q (keys_of_store s df))).
  { unfold total, total_by_store. rewrite sales_of_store, map_map.
    reflexivity. }
  destruct (term_le_sumQ q (keys_of_store s df) k) as [Hle Hsum].
  - intros k' _. apply sum_col_nonneg. intros r Hr.
    apply filter_In in Hr. apply Hpos, Hr.
  - exact Hk.
  - rewrite <- Htot in Hle, Hsum. rewrite Hsnd.
    assert (H0 : 0 <= q k).
    { apply sum_col_nonneg. intros r Hr.
      apply filter_In in Hr. apply Hpos, Hr. }
    assert (Htpos : 0 < total).
    { destruct (Qlt_le_dec 0 total) as [L | G]; [exact L |].
      exfalso. apply Htnz. lra. }
    assert (Hlo : 0 <= q k / total)
      by (apply Qle_shift_div_l; [exact Htpos | lra]).
    assert (Hhi : q k / total <= 1)
      by (apply Qle_shift_div_r; [exact Htpos | lra]).
    generalize dependent (q k / total). intros z Hlo Hhi. lra.
Qed.

Lemma div_zero_by_zero (a b : Q) : a == 0 -> b == 0 -> Float.div a b = NaN.
Proof.
  intros Ha Hb. unfold Float.div.
  apply Qeq_bool_iff in Hb. rewrite Hb.
  apply Qeq_alt in Ha. now rewrite Ha.
Qed.

(** In a table without negative quantities, a store whose quantities sum to
    0 has only [0 / 0] percentages. *)
Lemma percentual_of_empty_store (df : DataFrame) (d : Distribution) :
  (forall r, In r df -> 0 <= quantidade r) ->
  In d (calculate_sales_distribution df) ->
  store_quantity (sd_loja d) df == 0 ->
  percentual d = NaN.
Proof.
  intros Hpos Hd Hz. unfold calculate_sales_distribution in Hd.
  apply in_map_iff in Hd. destruct Hd as (x & <- & Hx). simpl in *.
  set (s := fst (fst x)) in *.
  set (total := total_by_store (sales_by_store_channel df) s).
  assert (Ht : total == 0)
    by (unfold total; rewrite total_by_store_is_store_quantity; exact Hz).
  assert (Hxs : In x (filter (fun y => String.eqb (fst (fst y)) s)
                        (sales_by_store_channel df)))
    by (apply filter_In; split; [exact Hx | apply String.eqb_refl]).
  rewrite sales_of_store in Hxs.
  apply in_map_iff in Hxs. destruct Hxs as (k & Ek & Hk).
  set (q := fun k => sum_col quantidade
                       (group_rows store_channel_key k df)).
  assert (Hsnd : snd x = q k) by (rewrite <- Ek; reflexivity).
  assert (Htot : total = sumQ (map q (keys_of_store s df))).
  { unfold total, total_by_store. rewrite sales_of_store, map_map.
    reflexivity. }
  assert (Hq : forall k', 0 <= q k').
  { intros k'. apply sum_col_nonneg. intros r Hr.
    apply filter_In in Hr. apply Hpos, Hr. }
  destruct (term_le_sumQ q (keys_of_store s df) k) as [Hle _];
    [intros; apply Hq | exact Hk |].
  rewrite <- Htot in Hle. pose proof (Hq k) as H0.
  rewrite div_zero_by_zero; [reflexivity | rewrite Hsnd; lra | exact Ht].
Qed.

Lemma store_rows_In (s : string) (df : DataFrame) (d : Distribution) :
  In d (store_rows s (calculate_sales_distribution df)) ->
  In d (calculate_sales_distribution df) /\ sd_loja d = s.
Proof.
  unfold store_rows. intros H. apply filter_In in H.
  destruct H as [H1 H2]. apply String.eqb_eq in H2. tauto.
Qed.

(** With the rounding done on exact values, the percentages of a store with
    a total other than 0 sum to 100 within 0.01: there are at most two, each
    within 0.005 of its share. *)
Lemma store_percentages_sum_exact (df : DataFrame) (s : string) :
  ~ store_quantity s df == 0 ->
  Float.within
    (Float.sum
       (map percentual (store_rows s (calculate_sales_distribution df))))
    100 (1 # 100).
Proof.
  intros Hq.
  pose proof (total_by_store_is_store_quantity s df) as Ht.
  assert (Hnz : ~ total_by_store (sales_by_store_channel df) s == 0)
    by (rewrite Ht; exact Hq).
  rewrite (percentages_of_store s df Hnz), float_sum_finite.
  set (total := total_by_store (sales_by_store_channel df) s) in *.
  set (share := fun k => sum_col quantidade
                           (group_rows store_channel_key k df)
                         / total * 100).
  change (map (fun k => Float.round2_Q
                          (sum_col quantidade
                             (group_rows store_channel_key k df)
                           / total * 100)) (keys_of_store s df))
    with (map (fun k => Float.round2_Q (share k)) (keys_of_store s df)).
  unfold Float.within.
  pose proof (round2_sum_bound share (keys_of_store s df)) as Hb.
  assert (Hs : sumQ (map share (keys_of_store s df)) == 100).
  { transitivity
      (sumQ (map (fun k => sum_col quantidade
                             (group_rows store_channel_key k df)
                           * (/ total * 100)) (keys_of_store s df))).
    - apply sumQ_map_ext. intros k _. unfold share. field. exact Hnz.
    - rewrite sumQ_map_scale.
      assert (E : sumQ (map (fun k => sum_col quantidade
                               (group_rows store_channel_key k df))
                          (keys_of_store s df)) == total).
      { unfold total, total_by_store.
        rewrite sales_of_store, map_map. reflexivity. }
      rewrite E. field. exact Hnz. }
  assert (Hn : inject_Z (Z.of_nat (List.length (keys_of_store s df)))
               <= 2).
  { pose proof (keys_of_store_length s df) as Hl.
    rewrite <- (Zle_Qle _ 2). lia. }
  apply Qabs_Qle_condition in Hb. apply Qabs_Qle_condition.
  rewrite Hs in Hb. lra.
Qed.

End DistributionFacts.

Section DistributionClaims.

Import Frame MetricsCalculator.
Local Open Scope Q_scope.

(** C8, as stated, fails.  A store whose only row has quantity 0 has a
    [NaN] percentage ([0 / 0]); the sum (pandas skips [NaN]) is 0, not
    100. *)
Lemma zero_quantity_store_does_not_sum_to_100 :
  In "A"%string (map sd_loja (calculate_sales_distribution zero_quantity))
  /\ map percentual
       (store_rows "A" (calculate_sales_distribution zero_quantity))
     = [NaN]
  /\ ~ Float.within
         (Float.sum
            (map percentual
               (store_rows "A" (calculate_sales_distribution zero_quantity))))
         100 (1 # 100).
Proof.
  split; [vm_compute; left; reflexivity |].
  split; [vm_compute; reflexivity |].
  vm_compute. intros H. apply H. reflexivity.
Qed.

(** C8, amended.  In a table without negative quantities, for every store
    of the distribution: when the quantities of the store do not sum to 0,
    every percentage of its rows is a finite number between 0 and 100 and
    the percentages sum to 100 within 0.02, one hundredth for each of the at
    most two rows; when they sum to 0, every percentage is [NaN]. *)
Theorem distribution_sums_to_100 (df : DataFrame) (s : string) :
  (forall r, In r df -> 0 <= quantidade r) ->
  In s (map sd_loja (calculate_sales_distribution df)) ->
  let rows := store_rows s (calculate_sales_distribution df) in
  (~ store_quantity s df == 0 ->
   (forall d, In d rows ->
              exists p, percentual d = Finite p /\ 0 <= p <= 100)
   /\ Float.within (Float.sum (map percentual rows)) 100 (2 # 100))
  /\ (store_quantity s df == 0 ->
      forall d, In d rows -> percentual d = NaN).
Proof.
  intros Hpos _. cbv zeta. split.
  - intros Hnz. split.
    + intros d Hd. destruct (store_rows_In s df d Hd) as [Hin Hs].
      apply (percentual_in_range df d Hpos Hin). now rewrite Hs.
    + pose proof (store_percentages_sum_exact df s Hnz) as H.
      unfold Float.within in *.
      destruct (Float.sum
                  (map percentual
                     (store_rows s (calculate_sales_distribution df))));
        try exact H.
      apply (Qle_trans _ (1 # 100)); [exact H | discriminate].
  - intros Hz d Hd. destruct (store_rows_In s df d Hd) as [Hin Hs].
    apply (percentual_of_empty_store df d Hpos Hin). now rewrite Hs.
Qed.

Lemma distribution_sums_to_100_witness :
  Float.within
    (Float.sum
       (map percentual
          (store_rows "A" (calculate_sales_distribution sparse_weeks))))
    100 (2 # 100).
Proof.
  refine (proj2 (proj1 (distribution_sums_to_100 sparse_weeks "A" _ _) _)).
  - intros r Hr. vm_compute in Hr.
    destruct Hr as [<- | [<- | [<- | []]]]; vm_compute; discriminate.
  - vm_compute. left. reflexivity.
  - vm_compute. discriminate.
Defined.

End DistributionClaims.

(** * Further properties of the code *)

(** ** The filter evaluator *)

Section FilterExtras.

Import Frame FilterComponent.

Lemma filter_filter_andb {A : Type} (p q : A -> bool) (l : list A) :
  filter p (filter q l) = filter (fun x => q x && p x) l.
Proof.
  induction l as [| x l IH]; simpl; [reflexivity |].
  destruct (q x); simpl; rewrite IH; reflexivity.
Qed.

Lemma filter_all {A : Type} (p : A -> bool) (l : list A) :
  (forall x, In x l -> p x = true) -> filter p l = l.
Proof.
  induction l as [| x l IH]; simpl; intros H; [reflexivity |].
  rewrite (H x (or_introl eq_refl)), IH; [reflexivity |].
  intros y Hy. apply H. now right.
Qed.

Lemma filter_none {A : Type} (p : A -> bool) (l : list A) :
  (forall x, In x l -> p x = false) -> filter p l = [].
Proof.
  induction l as [| x l IH]; simpl; intros H; [reflexivity |].
  rewrite (H x (or_introl eq_refl)). apply IH.
  intros y Hy. apply H. now right.
Qed.

Lemma filter_lojas_as_filter (f : Filters) (df : DataFrame) :
  filter_lojas f df = filter (store_ok f) df.
Proof.
  unfold filter_lojas, store_ok.
  destruct (truthy (lojas f)); simpl.
  - destruct (isin String.eqb Empresa (values (lojas f))); simpl.
    + symmetry. now apply filter_all.
    + reflexivity.
  - symmetry. now apply filter_all.
Qed.

Lemma filter_tipos_as_filter (f : Filters) (df : DataFrame) :
  filter_tipos f df = filter (tipo_ok f) df.
Proof.
  unfold filter_tipos, tipo_ok.
  destruct (truthy (tiposCliente f)); simpl.
  - reflexivity.
  - symmetry. now apply filter_all.
Qed.

Lemma filter_datas_as_filter (f : Filters) (df : DataFrame) :
  filter_datas f df = filter (date_ok f) df.
Proof.
  unfold filter_datas, date_ok.
  destruct (data_inicio f) as [a |], (data_fim f) as [b |];
    try reflexivity; symmetry; now apply filter_all.
Qed.

Lemma apply_filters_as_filter (f : Filters) (df : DataFrame) :
  apply_filters f df = filter (passes f) df.
Proof.
  unfold apply_filters.
  rewrite filter_lojas_as_filter, filter_tipos_as_filter,
    filter_datas_as_filter, !filter_filter_andb.
  apply filter_ext. intros r. unfold passes.
  now rewrite andb_assoc.
Qed.

(** X1.  The three tests of [apply_filters] combine as a conjunction and
    act row by row: the result is the table restricted, in its order, to the
    rows that pass the store test, the customer-type test and the date
    test. *)
Theorem apply_filters_is_conjunction (f : Filters) (df : DataFrame) :
  apply_filters f df = filter (passes f) df
  /\ (forall r,
        In r (apply_filters f df) <->
        In r df /\ store_ok f r = true /\ tipo_ok f r = true
        /\ date_ok f r = true).
Proof.
  split; [apply apply_filters_as_filter |].
  intros r. rewrite apply_filters_as_filter, filter_In. unfold passes.
  rewrite !andb_true_iff. tauto.
Qed.

(** X2.  Filtering twice with the same selection changes nothing more. *)
Theorem apply_filters_idempotent (f : Filters) (df : DataFrame) :
  apply_filters f (apply_filters f df) = apply_filters f df.
Proof.
  rewrite !apply_filters_as_filter, filter_filter_andb.
  apply filter_ext. intros r. now destruct (passes f r).
Qed.

(** X3.  Filtering keeps the year column in step with the date column. *)
Theorem apply_filters_keeps_year_consistent (f : Filters) (df : DataFrame) :
  year_consistent df -> year_consistent (apply_filters f df).
Proof.
  unfold year_consistent. rewrite !Forall_forall. intros H r Hr.
  rewrite apply_filters_as_filter in Hr. apply filter_In in Hr.
  apply H, Hr.
Qed.

Lemma apply_filters_keeps_year_consistent_witness :
  year_consistent
    (apply_filters (mkFilters (Some ["B"]%string) None None None) stores_abc).
Proof.
  apply apply_filters_keeps_year_consistent. repeat constructor.
Defined.

(** X4.  A selection of stores none of which occurs in the table, and
    without the company-wide entry, gives the empty table. *)
Theorem unknown_stores_give_empty_table (f : Filters) (df : DataFrame) :
  truthy (lojas f) = true ->
  ~ In Empresa (values (lojas f)) ->
  (forall r, In r df -> ~ In (loja r) (values (lojas f))) ->
  apply_filters f df = [].
Proof.
  intros Ht He Hr. rewrite apply_filters_as_filter.
  apply filter_none. intros r Hin. unfold passes, store_ok.
  rewrite Ht. simpl.
  destruct (isin String.eqb Empresa (values (lojas f))) eqn:E1.
  - apply isin_In in E1. contradiction.
  - destruct (isin String.eqb (loja r) (values (lojas f))) eqn:E2.
    + apply isin_In in E2. exfalso. now apply (Hr r).
    + reflexivity.
Qed.

Lemma unknown_stores_give_empty_table_witness :
  apply_filters (mkFilters (Some ["Store-9"]%string) None None None)
    two_stores = [].
Proof.
  apply unknown_stores_give_empty_table.
  - reflexivity.
  - simpl. intros [H | []]. discriminate H.
  - intros r Hr. vm_compute in Hr.
    destruct Hr as [<- | [<- | []]]; simpl; intros [H | []]; discriminate H.
Defined.

(** X5.  A date range whose end is before its start gives the empty
    table. *)
Theorem inverted_date_range_gives_empty_table (f : Filters) (df : DataFrame)
  (inicio fim : Z) :
  data_inicio f = Some inicio -> data_fim f = Some fim -> fim < inicio ->
  apply_filters f df = [].
Proof.
  intros Hi Hf Hlt. rewrite apply_filters_as_filter.
  apply filter_none. intros r _. unfold passes, date_ok.
  rewrite Hi, Hf.
  destruct (Z.leb_spec inicio (data r)), (Z.leb_spec (data r) fim);
    try lia; now rewrite !andb_false_r.
Qed.

Lemma inverted_date_range_gives_empty_table_witness :
  apply_filters (mkFilters None None (Some 19724) (Some 19723)) two_stores
  = [].
Proof.
  apply (inverted_date_range_gives_empty_table _ _ 19724 19723);
    [reflexivity | reflexivity | lia].
Defined.

(** X6.  An empty selection is no selection: an empty list of stores, or of
    customer types, restricts nothing, like an absent one. *)
Theorem empty_selection_restricts_nothing (f : Filters) (df : DataFrame) :
  (lojas f = Some [] ->
   apply_filters f df = apply_filters (without_lojas f) df)
  /\ (tiposCliente f = Some [] ->
      apply_filters f df
      = apply_filters
          (mkFilters (lojas f) None (data_inicio f) (data_fim f)) df).
Proof.
  split; intros H; unfold apply_filters, filter_lojas, filter_tipos;
    simpl; rewrite H; reflexivity.
Qed.

Lemma empty_selection_restricts_nothing_witness :
  apply_filters (mkFilters (Some []) None None None) two_stores = two_stores.
Proof.
  refine (proj1 (empty_selection_restricts_nothing
                   (mkFilters (Some []) None None None) two_stores) _).
  reflexivity.
Defined.

(** X7.  The table the performance page compares year over year is the
    table filtered without its date bounds: the date range of the side bar
    never restricts the comparison. *)
Theorem df_for_yoy_ignores_dates (f : Filters) (df : DataFrame) :
  PerformancePage.df_for_yoy f df = apply_filters (without_datas f) df
  /\ PerformancePage.df_for_yoy f df
     = PerformancePage.df_for_yoy (without_datas f) df.
Proof.
  split; [| reflexivity].
  unfold PerformancePage.df_for_yoy, apply_filters, filter_datas,
    filter_tipos, filter_lojas, without_datas. simpl.
  destruct (truthy (lojas f)); simpl; [| reflexivity].
  now destruct (isin String.eqb Empresa (values (lojas f))).
Qed.

End FilterExtras.

(** ** Year to date and year over year *)

Section YearExtras.

Import Frame FilterComponent MetricsCalculator.

Lemma year_start_lt (y : Z) :
  Calendar.year_start y < Calendar.year_start (y + 1).
Proof.
  unfold Calendar.year_start, Calendar.days_from_civil. cbv zeta.
  replace (1 <=? 2) with true by reflexivity.
  replace (1 >? 2) with false by reflexivity.
  Z.div_mod_to_equations. lia.
Qed.

(** The days of a year are those from its 1 January to the day before the
    next 1 January. *)
Lemma year_of_iff (d y : Z) :
  Calendar.year_of d = y <->
  Calendar.year_start y <= d < Calendar.year_start (y + 1).
Proof.
  split.
  - intros <-. apply year_of_bounds.
  - intros H. pose proof (year_of_bounds d) as Hd.
    destruct (Z.lt_trichotomy (Calendar.year_of d) y) as [L | [E | G]];
      [| exact E |].
    + pose proof (year_start_mono (Calendar.year_of d + 1) y). lia.
    + pose proof (year_start_mono (y + 1) (Calendar.year_of d)). lia.
Qed.

Lemma ytd_mask_window (y t : Z) (r : Row) :
  ano r = Calendar.year_of (data r) ->
  ytd_mask y t r = passes (year_window y (Calendar.date_of_instant t)) r.
Proof.
  intros Hr. unfold ytd_mask, passes, store_ok, tipo_ok, date_ok,
    year_window. simpl. rewrite Hr.
  pose proof (year_of_iff (data r) y) as Hy.
  pose proof (midnight_le_instant (data r) t) as Hm.
  destruct (Z.eqb_spec (Calendar.year_of (data r)) y) as [E | N];
    destruct (Z.leb_spec (Calendar.midnight (data r)) t);
    destruct (Z.leb_spec (Calendar.year_start y) (data r));
    destruct (Z.leb_spec (data r)
                (Z.min (Calendar.date_of_instant t)
                   (Calendar.year_start (y + 1) - 1)));
    simpl; try reflexivity; exfalso; lia.
Qed.

(** X8.  The year to date is the total over a date window: the sum
    [calculate_ytd] returns for a reference year is the total of the column
    over the table filtered from 1 January of that year to the day of the
    clock reading, or to 31 December if that comes first.  With no
    reference year given, the year is the one of a first clock reading. *)
Theorem ytd_is_total_over_year_window (df : DataFrame) (column : Column)
  (y : Z) (c : Clock.readings) (n : nat) :
  year_consistent df ->
  fst (calculate_ytd df column (Some y) c n)
  = calculate_total
      (apply_filters (year_window y (Calendar.date_of_instant (c n))) df)
      column
  /\ fst (calculate_ytd df column None c n)
     = fst (calculate_ytd df column (Some (Clock.year (c n))) c (S n)).
Proof.
  intros Hdf. split; [| reflexivity].
  unfold calculate_total. rewrite apply_filters_as_filter.
  unfold calculate_ytd, Clock.bind, Clock.ret, Clock.now. simpl.
  f_equal. apply filter_ext_in. intros r Hr. apply ytd_mask_window.
  unfold year_consistent in Hdf. rewrite Forall_forall in Hdf.
  now apply Hdf.
Qed.

Lemma ytd_is_total_over_year_window_witness :
  fst (calculate_ytd stores_abc Receita (Some 2024) (noon 2024 1 2) 0%nat)
  = calculate_total
      (apply_filters
         (year_window 2024
            (Calendar.date_of_instant (noon 2024 1 2 0%nat))) stores_abc)
      Receita.
Proof.
  refine (proj1 (ytd_is_total_over_year_window stores_abc Receita 2024
                   (noon 2024 1 2) 0%nat _)).
  repeat constructor.
Defined.

(** X9.  The year to date of a year that has not begun at the clock reading
    is 0, whatever rows of that year the table holds. *)
Theorem ytd_of_future_year_is_zero (df : DataFrame) (column : Column)
  (y : Z) (c : Clock.readings) (n : nat) :
  year_consistent df ->
  Clock.year (c n) < y ->
  fst (calculate_ytd df column (Some y) c n) = 0%Q.
Proof.
  intros Hdf Hy.
  unfold calculate_ytd, Clock.bind, Clock.ret, Clock.now. simpl.
  rewrite filter_none; [reflexivity |].
  intros r Hr. unfold ytd_mask.
  unfold year_consistent in Hdf. rewrite Forall_forall in Hdf.
  specialize (Hdf r Hr).
  destruct (Z.eqb_spec (ano r) y) as [E | N]; [| reflexivity]. simpl.
  apply Z.leb_gt.
  destruct (Z_le_gt_dec (Calendar.midnight (data r)) (c n)) as [L | G];
    [| lia].
  exfalso. apply midnight_le_instant in L.
  apply year_of_mono in L. unfold Clock.year in Hy. lia.
Qed.

Lemma ytd_of_future_year_is_zero_witness :
  fst (calculate_ytd stores_abc Receita (Some 2024) (noon 2023 6 1) 0%nat) = 0%Q.
Proof.
  apply ytd_of_future_year_is_zero.
  - repeat constructor.
  - vm_compute. reflexivity.
Defined.

Local Open Scope Q_scope.

(** X10.  The percentage of [calculate_yoy] is always a finite number; the
    difference is the current value minus the previous one, and with a
    previous value other than 0 the percentage is the difference over the
    previous value, times 100. *)
Theorem yoy_percentage_is_finite (df : DataFrame) (column : Column)
  (cy py : option Z) (c : Clock.readings) :
  let r := Clock.run (calculate_yoy df column cy py) c in
  Float.is_finite (percentage r) = true
  /\ difference r = current_value r - previous_value r
  /\ (~ previous_value r == 0 ->
      percentage r = Finite (difference r / previous_value r * 100)).
Proof.
  cbv zeta.
  destruct (run_yoy df column cy py c) as [Hp Hq]. cbv zeta in Hp, Hq.
  rewrite <- Hp in Hq.
  set (r := Clock.run (calculate_yoy df column cy py) c) in *.
  assert (Hd : difference r = current_value r - previous_value r)
    by (subst r; destruct cy, py; reflexivity).
  rewrite Hq. unfold Float.div.
  destruct (Qeq_bool (previous_value r) 0) eqn:E; simpl.
  - split; [reflexivity | split; [exact Hd |]].
    intros Hnz. apply Qeq_bool_iff in E. contradiction.
  - split; [reflexivity | split; [exact Hd | reflexivity]].
Qed.

Lemma var_pct_finite (a p : Q) :
  Float.is_finite (var_pct a p) = true
  /\ (~ p == 0 -> var_pct a p = Finite ((a - p) / p * 100)).
Proof.
  unfold var_pct, Float.div. destruct (Qeq_bool p 0) eqn:E.
  - split.
    + destruct (a - p ?= 0); reflexivity.
    + intros H. apply Qeq_bool_iff in E. contradiction.
  - split; reflexivity.
Qed.

(** X11.  Every percentage of [calculate_yoy_by_store] is a finite number;
    for a store and metric whose previous-year cell is not 0 it is the
    current cell minus the previous one, over the previous one, times
    100. *)
Theorem yoy_by_store_percentages_are_finite (df : DataFrame)
  (cy py : option Z) (c : Clock.readings) (row : Comparison)
  (metric : Column) :
  In row (Clock.run (calculate_yoy_by_store df cy py) c) ->
  Float.is_finite (var_pct_of row metric) = true
  /\ (~ anterior row metric == 0 ->
      var_pct_of row metric
      = Finite ((atual row metric - anterior row metric)
                / anterior row metric * 100)).
Proof.
  intros Hrow. rewrite run_yoy_by_store in Hrow.
  destruct (compare_years_cells _ _ _ _ Hrow metric) as (_ & _ & ->).
  apply var_pct_finite.
Qed.

Lemma yoy_by_store_percentages_are_finite_witness :
  let result :=
    Clock.run (calculate_yoy_by_store stores_abc (Some 2024%Z) (Some 2023%Z))
      (noon 2024 3 1) in
  Float.is_finite (var_quantidade_pct (nth 1 result no_comparison)) = true.
Proof.
  intros result.
  refine (proj1 (yoy_by_store_percentages_are_finite stores_abc
                   (Some 2024%Z) (Some 2023%Z) (noon 2024 3 1)
                   (nth 1 result no_comparison) Quantidade _)).
  apply nth_In. vm_compute. lia.
Defined.



End YearExtras.

(** ** Sorted keys *)

Section SortedKeys.

Import Frame.

Context {K : Type} `{HK : Key K}.

Hypothesis leb_total :
  forall a b : K, key_leb a b = true \/ key_leb b a = true.

Lemma insert_sorted_HdRel (h k : K) (l : list K) :
  key_leb h k = true ->
  HdRel (fun a b => key_leb a b = true) h l ->
  HdRel (fun a b => key_leb a b = true) h (insert_sorted k l).
Proof.
  intros Hk Hl. destruct l as [| x l]; simpl.
  - now constructor.
  - destruct (key_leb k x); constructor; [exact Hk |].
    now inversion Hl.
Qed.

Lemma insert_sorted_ascending (k : K) (l : list K) :
  ascending l -> ascending (insert_sorted k l).
Proof.
  unfold ascending. induction l as [| h t IH]; simpl; intros Hl.
  - repeat constructor.
  - destruct (key_leb k h) eqn:E.
    + constructor; [exact Hl | now constructor].
    + inversion Hl as [| ? ? Ht Hh]; subst.
      constructor; [now apply IH |].
      apply insert_sorted_HdRel; [| exact Hh].
      destruct (leb_total h k) as [H | H]; [exact H | congruence].
Qed.

Lemma sort_keys_ascending (l : list K) : ascending (sort_keys l).
Proof.
  induction l as [| h t IH]; simpl.
  - constructor.
  - now apply insert_sorted_ascending.
Qed.

Lemma group_keys_ascending (l : list K) : ascending (group_keys l).
Proof. apply sort_keys_ascending. Qed.

End SortedKeys.

Section OrderExtras.

Import Frame MetricsCalculator DataLoaderAccessors.

Lemma string_leb_total (a b : string) :
  key_leb a b = true \/ key_leb b a = true.
Proof. apply String.leb_total. Qed.

Lemma tipo_leb_total (a b : TipoCliente) :
  key_leb a b = true \/ key_leb b a = true.
Proof. destruct a, b; simpl; auto. Qed.

(** X13.  The rows of the year-over-year comparison come in ascending
    order of the store name. *)
Theorem yoy_by_store_rows_are_sorted (df : DataFrame) (cy py : option Z)
  (c : Clock.readings) :
  ascending (map c_loja (Clock.run (calculate_yoy_by_store df cy py) c)).
Proof.
  rewrite run_yoy_by_store. unfold compare_years.
  rewrite map_map. simpl.
  rewrite merge_outer_keys
    by (rewrite agg_sums_keys; apply group_keys_NoDup).
  apply group_keys_ascending, string_leb_total.
Qed.

(** X14.  [get_stores] lists every store of the table once, in ascending
    order; [get_customer_types] lists every customer type of the table
    once, in the order of the labels, so it has at most two entries. *)
Theorem accessors_list_distinct_sorted_values (df : DataFrame) :
  (ascending (get_stores df)
   /\ NoDup (get_stores df)
   /\ forall s, In s (get_stores df) <-> exists r, In r df /\ loja r = s)
  /\ (ascending (get_customer_types df)
      /\ NoDup (get_customer_types df)
      /\ (List.length (get_customer_types df) <= 2)%nat
      /\ forall t, In t (get_customer_types df) <->
                   exists r, In r df /\ tipoCliente r = t).
Proof.
  unfold get_stores, get_customer_types. split.
  - split; [apply group_keys_ascending, string_leb_total |].
    split; [apply group_keys_NoDup |].
    intros s. rewrite group_keys_In, in_map_iff.
    split; intros (r & H1 & H2); exists r; tauto.
  - split; [apply group_keys_ascending, tipo_leb_total |].
    split; [apply group_keys_NoDup |].
    split.
    + apply (NoDup_incl_length (l' := [Varejo; Atacado])).
      * apply group_keys_NoDup.
      * intros t _. destruct t; simpl; auto.
    + intros t. rewrite group_keys_In, in_map_iff.
      split; intros (r & H1 & H2); exists r; tauto.
Qed.

(** X15.  On a table with rows, [get_date_range] gives the earliest and the
    latest date of the table: both are dates of rows and every row lies
    between them, so filtering with that range alone keeps the whole table.
    On a table without rows there is no range. *)
Theorem date_range_covers_the_table (df : DataFrame) :
  (get_date_range df = None <-> df = [])
  /\ forall lo hi,
       get_date_range df = Some (lo, hi) ->
       (forall r, In r df -> lo <= data r <= hi)
       /\ (exists r, In r df /\ data r = lo)
       /\ (exists r, In r df /\ data r = hi)
       /\ FilterComponent.apply_filters
            (FilterComponent.mkFilters None None (Some lo) (Some hi)) df
          = df.
Proof.
  unfold get_date_range. split.
  - destruct df; simpl; split; intros H; try reflexivity; discriminate.
  - intros lo hi H.
    destruct (map data df) as [| d rest] eqn:E; [discriminate |].
    inversion H; subst lo hi. clear H.
    destruct (zmin_spec d rest) as [Hmin_in Hmin_le].
    destruct (zmax_spec d rest) as [Hmax_in Hmax_le].
    rewrite <- E in Hmin_in, Hmax_in, Hmin_le, Hmax_le.
    assert (Hall : forall r, In r df ->
              zmin d rest <= data r <= zmax d rest).
    { intros r Hr. split.
      - apply Hmin_le. now apply in_map.
      - apply Hmax_le. now apply in_map. }
    split; [exact Hall |].
    split; [apply in_map_iff in Hmin_in;
            destruct Hmin_in as (r & H1 & H2); exists r; tauto |].
    split; [apply in_map_iff in Hmax_in;
            destruct Hmax_in as (r & H1 & H2); exists r; tauto |].
    rewrite apply_filters_as_filter. apply filter_all.
    intros r Hr. unfold passes, store_ok, tipo_ok, date_ok. simpl.
    destruct (Hall r Hr) as [H1 H2].
    apply Z.leb_le in H1. apply Z.leb_le in H2. now rewrite H1, H2.
Qed.

Lemma date_range_covers_the_table_witness :
  FilterComponent.apply_filters
    (FilterComponent.mkFilters None None
       (Some (Calendar.days_from_civil 2024 1 1))
       (Some (Calendar.days_from_civil 2024 1 2))) two_stores
  = two_stores.
Proof.
  refine (proj2 (proj2 (proj2 (proj2 (date_range_covers_the_table two_stores)
            _ _ _)))).
  vm_compute. reflexivity.
Defined.

End OrderExtras.

(** ** The loader *)

Section LoaderExtras.

Import DataLoader.

Lemma insert_by_date_perm (r : Row) (l : DataFrame) :
  Permutation (insert_by_date r l) (r :: l).
Proof.
  induction l as [| h t IH]; simpl.
  - reflexivity.
  - destruct (data r <? data h).
    + reflexivity.
    + rewrite IH. apply perm_swap.
Qed.

Lemma insert_by_date_sorted (r : Row) (l : DataFrame) :
  Sorted Z.le (map data l) -> Sorted Z.le (map data (insert_by_date r l)).
Proof.
  induction l as [| h t IH]; simpl; intros Hl.
  - repeat constructor.
  - destruct (Z.ltb_spec (data r) (data h)) as [L | G]; simpl.
    + constructor; [exact Hl | constructor; lia].
    + inversion Hl as [| ? ? Ht Hh]; subst.
      constructor; [now apply IH |].
      destruct t as [| x t]; simpl.
      * constructor. lia.
      * destruct (Z.ltb_spec (data r) (data x)); simpl; constructor;
          [lia | now inversion Hh].
Qed.

Lemma sort_by_date_perm (l : DataFrame) :
  Permutation (fold_right insert_by_date [] l) l.
Proof.
  induction l as [| r l IH]; simpl.
  - reflexivity.
  - rewrite insert_by_date_perm. now constructor.
Qed.

Lemma sort_by_date_sorted (l : DataFrame) :
  Sorted Z.le (map data (fold_right insert_by_date [] l)).
Proof.
  induction l as [| r l IH]; simpl.
  - constructor.
  - now apply insert_by_date_sorted.
Qed.

(** X16.  The table [_process_data] leaves has the decoded rows of the
    file, all of them and no other, ordered by date, and in each row the
    year column is the year of the date. *)
Theorem process_data_sorts_and_keeps_rows (raw : list RawRow) :
  Permutation (process_data raw) (map process_row raw)
  /\ Sorted Z.le (map data (process_data raw))
  /\ year_consistent (process_data raw).
Proof.
  unfold process_data.
  split; [apply sort_by_date_perm | split; [apply sort_by_date_sorted |]].
  unfold year_consistent. apply Forall_forall. intros r Hr.
  apply (Permutation_in _ (sort_by_date_perm _)) in Hr.
  apply in_map_iff in Hr. destruct Hr as (x & <- & _). reflexivity.
Qed.

End LoaderExtras.

(** ** The period series by store *)

Section StorePeriodExtras.

Import Frame MetricsCalculator.
Local Open Scope Q_scope.











End StorePeriodExtras.

(** ** The breakdowns by store *)

Section BreakdownExtras.

Import Frame MetricsCalculator.
Local Open Scope Q_scope.

Lemma group_rows_store_channel (k : string * TipoCliente)
  (df : DataFrame) :
  group_rows store_channel_key k df
  = store_channel_rows (fst k) (snd k) df.
Proof.
  unfold group_rows, store_channel_rows. apply filter_ext. intros r.
  destruct k as [s t]. simpl. unfold FilterComponent.tipo_eqb.
  destruct (key_eqb (store_channel_key r) (s, t)) eqn:E.
  - apply key_eqb_true in E. unfold store_channel_key in E.
    inversion E; subst. rewrite String.eqb_refl.
    now destruct (TipoCliente_eq_dec (tipoCliente r) (tipoCliente r)).
  - destruct (String.eqb_spec (loja r) s) as [E1 | N1]; [| reflexivity].
    destruct (TipoCliente_eq_dec (tipoCliente r) t) as [E2 | N2];
      [| reflexivity].
    exfalso. subst. unfold store_channel_key in E.
    now rewrite key_eqb_refl in E.
Qed.

Lemma by_store_and_channel_unfold (df : DataFrame) :
  calculate_by_store_and_channel df
  = map (fun k =>
           let s := mkSums k
                      (sum_col quantidade (group_rows store_channel_key k df))
                      (sum_col receita (group_rows store_channel_key k df))
                      (sum_col lucro (group_rows store_channel_key k df)) in
           mkChannelMetrics s
             (Float.round2 (Float.div (s_receita s) (s_quantidade s)))
             (Float.round2 (Float.div (s_lucro s) (s_quantidade s))))
        (group_keys (map store_channel_key df)).
Proof.
  unfold calculate_by_store_and_channel, agg_sums, groupby.
  rewrite !map_map. reflexivity.
Qed.

(** X19.  The breakdown by store and channel has one row for every pair of
    store and customer type that occurs in the table, and no other row; the
    three sums of a row are the sums of the columns over the rows of the
    table with that store and that customer type. *)
Theorem channel_breakdown_rows_are_the_observed_pairs (df : DataFrame) :
  let result := calculate_by_store_and_channel df in
  NoDup (map (fun m => s_key (cm_sums m)) result)
  /\ (forall s t,
        In (s, t) (map (fun m => s_key (cm_sums m)) result) <->
        exists r, In r df /\ loja r = s /\ tipoCliente r = t)
  /\ (forall m c,
        In m result ->
        s_col c (cm_sums m)
        = sum_col (col c)
            (store_channel_rows (fst (s_key (cm_sums m)))
               (snd (s_key (cm_sums m))) df)).
Proof.
  cbv zeta. rewrite by_store_and_channel_unfold. rewrite map_map. simpl.
  rewrite map_id. split; [apply group_keys_NoDup | split].
  - intros s t. rewrite group_keys_In, in_map_iff. split.
    + intros (r & E & Hr). unfold store_channel_key in E.
      inversion E. exists r. tauto.
    + intros (r & Hr & <- & <-). exists r. split; [reflexivity | exact Hr].
  - intros m c Hm. apply in_map_iff in Hm. destruct Hm as (k & <- & _).
    simpl. rewrite <- group_rows_store_channel. now destruct c.
Qed.

(** X20.  An average of the breakdown by store and channel is a finite
    number exactly when the quantities of the group do not sum to 0, and
    then it is a number of hundredths within one hundredth of the ratio of
    the sums. *)
Theorem average_is_finite_iff_quantity_is_nonzero (df : DataFrame)
  (m : ChannelMetrics) :
  In m (calculate_by_store_and_channel df) ->
  (Float.is_finite (ticket_medio m) = true <->
   ~ s_quantidade (cm_sums m) == 0)
  /\ (Float.is_finite (lucro_medio m) = true <->
      ~ s_quantidade (cm_sums m) == 0)
  /\ (~ s_quantidade (cm_sums m) == 0 ->
      exists k1 k2 : Z,
        ticket_medio m = Finite (inject_Z k1 / 100)
        /\ Qabs (inject_Z k1 / 100
                 - s_receita (cm_sums m) / s_quantidade (cm_sums m))
           <= 1 # 100
        /\ lucro_medio m = Finite (inject_Z k2 / 100)
        /\ Qabs (inject_Z k2 / 100
                 - s_lucro (cm_sums m) / s_quantidade (cm_sums m))
           <= 1 # 100).
Proof.
  unfold calculate_by_store_and_channel. intros Hm.
  apply in_map_iff in Hm. destruct Hm as (s & <- & _). simpl.
  unfold Float.div.
  destruct (Qeq_bool (s_quantidade s) 0) eqn:E.
  - apply Qeq_bool_iff in E.
    assert (F1 : Float.is_finite
                   (Float.round2
                      match s_receita s ?= 0 with
                      | Eq => NaN | Lt => NegInf | Gt => PosInf
                      end) = false)
      by (destruct (s_receita s ?= 0); reflexivity).
    assert (F2 : Float.is_finite
                   (Float.round2
                      match s_lucro s ?= 0 with
                      | Eq => NaN | Lt => NegInf | Gt => PosInf
                      end) = false)
      by (destruct (s_lucro s ?= 0); reflexivity).
    rewrite F1, F2.
    repeat split; try discriminate; intros H; contradiction.
  - apply Qeq_bool_neq in E. simpl.
    repeat split; try (intros _; exact E); try reflexivity.
    intros _.
    exists (Float.rint (s_receita s / s_quantidade s * 100)).
    exists (Float.rint (s_lucro s / s_quantidade s * 100)).
    split; [reflexivity | split; [| split; [reflexivity |]]];
      apply (Qle_trans _ (1 # 200));
      try apply round2_bound; discriminate.
Qed.

Lemma average_is_finite_iff_quantity_is_nonzero_witness :
  let m := nth 0 (calculate_by_store_and_channel two_stores)
             (mkChannelMetrics (mkSums (EmptyString, Varejo) 0 0 0) NaN NaN)
  in
  Float.is_finite (ticket_medio m) = true.
Proof.
  intros m.
  assert (Hin : In m (calculate_by_store_and_channel two_stores))
    by (apply nth_In; vm_compute; lia).
  apply (proj1 (average_is_finite_iff_quantity_is_nonzero two_stores m Hin)).
  vm_compute. discriminate.
Defined.





Lemma agg_sums_total (c : Column) (df : DataFrame) :
  sumQ (map (s_col c) (agg_sums loja df)) == sum_col (col c) df.
Proof. rewrite s_col_agg. apply groupby_sums. Qed.

Lemma agg_sums_quantity_nonneg (df : DataFrame) (s : Sums string) :
  (forall r, In r df -> 0 <= quantidade r) ->
  In s (agg_sums loja df) -> 0 <= s_quantidade s.
Proof.
  intros Hpos Hs.
  change (s_quantidade s) with (s_col Quantidade s).
  rewrite (agg_sums_cells loja df s Quantidade Hs).
  apply sum_col_nonneg. intros r Hr.
  apply filter_In in Hr. apply Hpos, Hr.
Qed.

(** X22.  In a table without negative quantities: when the quantities do
    not sum to 0, the volume share of every store is a finite number between
    0 and 100 and the shares sum to 100 within 0.01 (they are not rounded);
    when the quantities sum to 0, every share is [NaN]. *)
Theorem volume_shares_sum_to_100 (df : DataFrame) :
  (forall r, In r df -> 0 <= quantidade r) ->
  let result := calculate_volume_vs_metrics df in
  (~ calculate_total df Quantidade == 0 ->
   (forall m, In m result ->
              exists v, volume_percentual m = Finite v /\ 0 <= v <= 100)
   /\ Float.within (Float.sum (map volume_percentual result)) 100 (1 # 100))
  /\ (calculate_total df Quantidade == 0 ->
      forall m, In m result -> volume_percentual m = NaN).
Proof.
  intros Hpos. cbv zeta.
  unfold calculate_volume_vs_metrics, calculate_total.
  set (total := sumQ (map s_quantidade (agg_sums loja df))).
  assert (Ht : total == sum_col (col Quantidade) df)
    by (apply (agg_sums_total Quantidade)).
  assert (Hterm : forall s, In s (agg_sums loja df) ->
            0 <= s_quantidade s <= total).
  { intros s Hs.
    destruct (term_le_sumQ s_quantidade (agg_sums loja df) s) as [Hle _].
    - intros x Hx. exact (agg_sums_quantity_nonneg df x Hpos Hx).
    - exact Hs.
    - split; [exact (agg_sums_quantity_nonneg df s Hpos Hs) | exact Hle]. }
  split.
  - intros Hnz. rewrite <- Ht in Hnz.
    assert (E : Qeq_bool total 0 = false).
    { destruct (Qeq_bool total 0) eqn:E; [| reflexivity].
      apply Qeq_bool_iff in E. contradiction. }
    split.
    + intros m Hm. apply in_map_iff in Hm. destruct Hm as (s & <- & Hs).
      simpl. unfold Float.div. rewrite E. simpl.
      eexists. split; [reflexivity |].
      destruct (Hterm s Hs) as [H0 H1].
      assert (Htpos : 0 < total).
      { destruct (Qlt_le_dec 0 total) as [L | G]; [exact L |].
        exfalso. apply Hnz. lra. }
      assert (Hlo : 0 <= s_quantidade s / total)
        by (apply Qle_shift_div_l; [exact Htpos | lra]).
      assert (Hhi : s_quantidade s / total <= 1)
        by (apply Qle_shift_div_r; [exact Htpos | lra]).
      generalize dependent (s_quantidade s / total). intros z Hlo Hhi. lra.
    + assert (Hsum : Float.sum
                       (map volume_percentual
                          (map (fun m =>
                             mkVolumeMetrics m
                               (Float.mul
                                  (Float.div (s_quantidade m) total) 100)
                               (Float.round2
                                  (Float.div (s_receita m) (s_quantidade m)))
                               (Float.round2
                                  (Float.div (s_lucro m) (s_quantidade m))))
                             (agg_sums loja df)))
                     = Finite (sumQ (map (fun m =>
                                            s_quantidade m / total * 100)
                                       (agg_sums loja df)))).
      { rewrite map_map. simpl. rewrite <- float_sum_finite, map_map.
        f_equal. apply map_ext. intros m. unfold Float.div.
        now rewrite E. }
      rewrite Hsum. unfold Float.within.
      assert (H100 : sumQ (map (fun m => s_quantidade m / total * 100)
                             (agg_sums loja df)) == 100).
      { transitivity
          (sumQ (map (fun m => s_quantidade m * (/ total * 100))
                   (agg_sums loja df))).
        - apply sumQ_map_ext. intros m _. field. exact Hnz.
        - rewrite sumQ_map_scale. fold total. field. exact Hnz. }
      rewrite H100. apply Qabs_Qle_condition. lra.
  - intros Hz m Hm. rewrite <- Ht in Hz.
    apply in_map_iff in Hm. destruct Hm as (s & <- & Hs). simpl.
    destruct (Hterm s Hs) as [H0 H1].
    rewrite div_zero_by_zero; [reflexivity | lra | exact Hz].
Qed.

Lemma volume_shares_sum_to_100_witness :
  Float.within
    (Float.sum (map volume_percentual (calculate_volume_vs_metrics two_stores)))
    100 (1 # 100).
Proof.
  refine (proj2 (proj1 (volume_shares_sum_to_100 two_stores _) _)).
  - intros r Hr. vm_compute in Hr.
    destruct Hr as [<- | [<- | []]]; vm_compute; discriminate.
  - vm_compute. discriminate.
Defined.

End BreakdownExtras.

(** ** The range of the distribution *)

Section DistributionExtras.

Import Frame MetricsCalculator.
Local Open Scope Q_scope.

(** X23.  With no negative quantity in the table, every percentage of the
    distribution of a store whose quantities do not sum to 0 is a finite
    number between 0 and 100. *)
Theorem distribution_percentages_are_in_range (df : DataFrame)
  (d : Distribution) :
  (forall r, In r df -> 0 <= quantidade r) ->
  In d (calculate_sales_distribution df) ->
  ~ store_quantity (sd_loja d) df == 0 ->
  exists p, percentual d = Finite p /\ 0 <= p <= 100.
Proof. apply percentual_in_range. Qed.

Lemma distribution_percentages_are_in_range_witness :
  let d := nth 0 (calculate_sales_distribution sparse_weeks)
             (mkDistribution EmptyString Varejo 0 NaN) in
  exists p, percentual d = Finite p /\ 0 <= p <= 100.
Proof.
  intros d.
  apply (distribution_percentages_are_in_range sparse_weeks d).
  - intros r Hr. vm_compute in Hr.
    destruct Hr as [<- | [<- | [<- | []]]]; vm_compute; discriminate.
  - apply nth_In. vm_compute. lia.
  - vm_compute. discriminate.
Defined.

End DistributionExtras.

(** ** The revenue page *)

Section PageExtras.

Import Frame FilterComponent MetricsCalculator.

(** X24.  When the revenue page draws one aggregated series, exactly one
    store is selected, it is not the company-wide entry, and every row of
    the filtered table it aggregates belongs to that store. *)
Theorem aggregated_series_is_of_one_store (f : Filters) (df : DataFrame)
  (series : list (Z * Q)) :
  RevenuePage.weekly_data f (apply_filters f df)
  = RevenuePage.Aggregated series ->
  exists s,
    values (lojas f) = [s]
    /\ s <> Empresa
    /\ (forall r, In r (apply_filters f df) -> loja r = s)
    /\ series = aggregate_by_period (apply_filters f df) Receita W.
Proof.
  unfold RevenuePage.weekly_data. intros H.
  destruct (truthy (lojas f)) eqn:Et; [| discriminate].
  destruct (List.length (values (lojas f)) =? 1)%nat eqn:El;
    [| discriminate].
  destruct (isin String.eqb Empresa (values (lojas f))) eqn:Ei;
    [discriminate |].
  simpl in H. apply Nat.eqb_eq in El.
  destruct (values (lojas f)) as [| s [| s' l]] eqn:Ev; try discriminate.
  exists s. split; [reflexivity |]. split.
  - intros ->. assert (Hin : In Empresa [Empresa]) by now left.
    apply (proj2 (isin_In _ _)) in Hin. congruence.
  - split; [| now inversion H].
    intros r Hr. rewrite apply_filters_as_filter in Hr.
    apply filter_In in Hr. destruct Hr as [_ Hr].
    unfold passes, store_ok in Hr. rewrite Et, Ev, Ei in Hr.
    rewrite !andb_true_iff in Hr. destruct Hr as [[Hr _] _].
    cbn [negb orb] in Hr. apply isin_In in Hr.
    destruct Hr as [E | []]. now symmetry.
Qed.

Lemma aggregated_series_is_of_one_store_witness :
  exists s,
    values (Some ["Store-1"]%string) = [s] /\ s <> Empresa.
Proof.
  destruct (aggregated_series_is_of_one_store
              (mkFilters (Some ["Store-1"]%string) None None None)
              two_stores
              (aggregate_by_period
                 (apply_filters
                    (mkFilters (Some ["Store-1"]%string) None None None)
                    two_stores) Receita W) eq_refl)
    as (s & H1 & H2 & _).
  exists s. split; assumption.
Defined.

End PageExtras.
